(** * analyze_frame_dumps.py: the GifBolt frame-dump analyzer

    A shallow embedding of [analyze_dumps] from [src/analyze_frame_dumps.py]
    and the properties of its report.

    Conventions of the embedding.
    - Python [int] is unbounded: frame numbers are [Z].
    - Text is a [string] of characters below code point 128, as [read()]
      returns it (line ends already translated to LF); a file whose bytes
      do not decode is an unreadable file (the [UnicodeDecodeError] is
      caught by the same [except Exception] as an [OSError]).
    - Standard output is the list of the lines printed, in order; every
      [print] call of the source adds one element.  The two marks of the
      gap lines are kept as their UTF-8 bytes.
    - The [frames] dict is a [gmap Z frame_info]: it is only ever read
      through [sorted(frames.keys())] and by key, so insertion order plays
      no role.
    - [int()] has the limit of 4300 digits that CPython applies by default
      to a decimal literal.  [str()] of an [int] is modelled without that
      limit: the numbers the script prints are frame numbers read by
      [int()], counts of files, and the count [end - start - 1], which can
      pass 4300 digits only between a negative and a positive frame number
      of which one has 4300 digits. *)

From Stdlib Require Import Ascii.
From stdpp Require Import gmap strings list sorting pretty.

(** ** Python string primitives used by the script *)

Module Py.

(** The newline character. *)
Definition nl : string := String "010"%char "".

(** [s.startswith(p)] *)
Definition startswith (s p : string) : bool := String.prefix p s.

(** [s.split(sep)] for a non-empty separator: non-overlapping matches,
    scanned left to right.  [skip] counts the characters of a matched
    separator that are still to be dropped; [cur] is the current piece,
    reversed. *)
Fixpoint split_go (sep : string) (skip : nat) (cur s : string) : list string :=
  match s with
  | "" => [String.rev cur]
  | String c s' =>
      match skip with
      | S k => split_go sep k cur s'
      | O =>
          if String.prefix sep s
          then String.rev cur :: split_go sep (String.length sep - 1) "" s'
          else split_go sep 0 (String c cur) s'
      end
  end.

Definition split (s sep : string) : list string := split_go sep 0 "" s.

(** [str.isspace] on one character below 128: TAB, LF, VT, FF, CR,
    FS, GS, RS, US and the space. *)
Definition isspace (c : ascii) : bool :=
  let n := Ascii.nat_of_ascii c in
  ((9 <=? n) && (n <=? 13)) || ((28 <=? n) && (n <=? 32)).

Fixpoint lstrip (s : string) : string :=
  match s with
  | "" => ""
  | String c s' => if isspace c then lstrip s' else s
  end.

Definition rstrip (s : string) : string := String.rev (lstrip (String.rev s)).

(** [s.strip()] *)
Definition strip (s : string) : string := rstrip (lstrip s).

Definition digit_value (c : ascii) : option Z :=
  let n := Ascii.nat_of_ascii c in
  if (48 <=? n) && (n <=? 57) then Some (Z.of_nat (n - 48)) else None.

(** The digit part of a base-10 literal: decimal digits, single
    underscores allowed between two digits. *)
Fixpoint int_digits (after_underscore : bool) (acc : Z) (s : string) : option Z :=
  match s with
  | "" => if after_underscore then None else Some acc
  | String c s' =>
      if Ascii.eqb c "_"
      then (if after_underscore then None else int_digits true acc s')
      else match digit_value c with
           | Some d => int_digits false (10 * acc + d)%Z s'
           | None => None
           end
  end.

Definition int_unsigned (s : string) : option Z :=
  match s with
  | "" => None
  | String c _ => if Ascii.eqb c "_" then None else int_digits false 0 s
  end.

(** The value of a base-10 literal already stripped of surrounding
    whitespace (the script always calls [int] on the result of [strip()]):
    an optional sign and the digit part.  The digits are those below code
    point 128, the only ones the text of this model has. *)
Definition int_literal (s : string) : option Z :=
  match s with
  | String c r =>
      if Ascii.eqb c "+" then int_unsigned r
      else if Ascii.eqb c "-" then Z.opp <$> int_unsigned r
      else int_unsigned s
  | "" => None
  end.

(** The number of digits of a literal, underscores and sign not counted. *)
Fixpoint count_digits (s : string) : nat :=
  match s with
  | "" => 0
  | String c s' =>
      (match digit_value c with Some _ => 1 | None => 0 end) + count_digits s'
  end.

(** [sys.get_int_max_str_digits()], at its default. *)
Definition max_str_digits : nat := 4300.

(** [int(s)]: the value of a well-formed literal of at most
    [max_str_digits] digits.  [None] is the [ValueError], raised for a
    malformed literal and for a well-formed one that is too long. *)
Definition int (s : string) : option Z :=
  match int_literal s with
  | Some n => if count_digits s <=? max_str_digits then Some n else None
  | None => None
  end.

(** [str(n)] and [f"{n}"] for an [int]. *)
Definition str_int (n : Z) : string := pretty n.

(** [f"{n}"] for a [len(...)]. *)
Definition str_len (n : nat) : string := pretty n.

Fixpoint zeros (k : nat) : string :=
  match k with O => "" | S k' => String "0" (zeros k') end.

(** [f"{n:04d}"]: sign-aware zero padding to a total width of 4. *)
Definition format_04d (n : Z) : string :=
  let sign := if (n <? 0)%Z then "-" else "" in
  let digits := pretty (Z.abs n) in
  sign +:+ zeros (4 - String.length sign - String.length digits) +:+ digits.

(** [f"{b}"] for a value that is [None], [True] or [False]. *)
Definition str_opt_bool (b : option bool) : string :=
  match b with
  | None => "None"
  | Some true => "True"
  | Some false => "False"
  end.

Definition hex_digit (n : nat) : ascii :=
  Ascii.ascii_of_nat (if n <? 10 then 48 + n else 87 + n).

(** One character of [repr(s)], with [q] the quote chosen for the string. *)
Definition repr_char (q c : ascii) : string :=
  let n := Ascii.nat_of_ascii c in
  if Ascii.eqb c q || Ascii.eqb c "\" then String "\" (String c "")
  else if n =? 9 then "\t"
  else if n =? 10 then "\n"
  else if n =? 13 then "\r"
  else if (n <? 32) || (127 <=? n)
       then String "\" (String "x" (String (hex_digit (n / 16)) (String (hex_digit (n mod 16)) "")))
  else String c "".

Fixpoint repr_body (q : ascii) (s : string) : string :=
  match s with
  | "" => ""
  | String c s' => repr_char q c +:+ repr_body q s'
  end.

Fixpoint mem_char (c : ascii) (s : string) : bool :=
  match s with
  | "" => false
  | String d s' => Ascii.eqb c d || mem_char c s'
  end.

Definition dquote : ascii := Ascii.ascii_of_nat 34.

(** [repr(s)]: single quotes, unless the string has a single quote and
    no double quote. *)
Definition repr (s : string) : string :=
  let q := if mem_char "'" s && negb (mem_char dquote s) then dquote else "'"%char in
  String q (repr_body q s) +:+ String q "".

(** [a in b] for strings, used to state what a report mentions. *)
Fixpoint contains (s sub : string) : bool :=
  String.prefix sub s ||
  match s with
  | "" => false
  | String _ s' => contains s' sub
  end.

Definition lower_char (c : ascii) : ascii :=
  let n := Ascii.nat_of_ascii c in
  if (65 <=? n) && (n <=? 90) then Ascii.ascii_of_nat (n + 32) else c.

(** [s.lower()] on characters below 128. *)
Fixpoint lower (s : string) : string :=
  match s with
  | "" => ""
  | String c s' => String (lower_char c) (lower s')
  end.

End Py.

(** ** Exceptions and the error monad of the [try] block *)

(** The exceptions the body of the [try] can raise: [split(': ')[1]] on a
    line without the separator, [int()] on a bad literal, and [open] or
    [read] failing. *)
Inductive exn : Type :=
  | IndexError
  | ValueError (literal : string)
  | OSError (msg : string).

(** [str(e)], as the [except] clause prints it.  [int()] raises its
    [ValueError] with one of two messages: for a malformed literal, the
    literal formatted with [%.200R]; for a well-formed literal over the
    digit limit, the limit and the number of digits. *)
Definition str_exn (e : exn) : string :=
  match e with
  | IndexError => "list index out of range"
  | ValueError literal =>
      match Py.int_literal literal with
      | None =>
          "invalid literal for int() with base 10: "
            +:+ String.substring 0 200 (Py.repr literal)
      | Some _ =>
          "Exceeds the limit (" +:+ Py.str_len Py.max_str_digits
            +:+ " digits) for integer string conversion: value has "
            +:+ Py.str_len (Py.count_digits literal)
            +:+ " digits; use sys.set_int_max_str_digits() to increase the limit"
      end
  | OSError msg => msg
  end.

Inductive result (A : Type) : Type :=
  | Ok (a : A)
  | Raise (e : exn).
Arguments Ok {A} a.
Arguments Raise {A} e.

#[global] Instance result_ret : MRet result := fun A a => Ok a.
#[global] Instance result_bind : MBind result := fun A B k m =>
  match m with
  | Ok a => k a
  | Raise e => Raise e
  end.

(** ** The scratch directory *)

(** What [open(p).read()] gives for a file of the directory. *)
Inductive read_result : Type :=
  | Readable (content : string)
  | Unreadable (msg : string).

(** A [Path] returned by [glob], with what reading it yields.  All paths of
    one run share the parent directory, so a path is its [name]; names are
    distinct within a directory. *)
Record path : Type := { name : string; data : read_result }.

#[global] Instance read_result_eq_dec : EqDecision read_result.
Proof. solve_decision. Defined.

#[global] Instance path_eq_dec : EqDecision path.
Proof. solve_decision. Defined.

(** The process environment: the [TEMP] variable, and the matches of the
    two [glob] patterns in the resolved directory, in the order the
    operating system lists them. *)
Record environment : Type := {
  TEMP : option string;
  glob_txt : list path;
  glob_raw : list path
}.

(** Ordering of [Path] objects inside one directory: by file name, compared
    as strings (the case-sensitive comparison of POSIX paths). *)
Definition path_le (p q : path) : Prop := (name p ≤ name q)%string.

#[global] Instance path_le_dec : RelDecision path_le.
Proof. intros p q. unfold path_le. apply _. Defined.

(** [sorted(...)] on paths and on frame numbers. *)
Definition sorted_paths (l : list path) : list path := merge_sort path_le l.
Definition sorted_ints (l : list Z) : list Z := merge_sort Z.le l.

(** ** The metadata loop *)

(** The value stored in [frames] for one frame number. *)
Record frame_info : Type := {
  meta : string;
  displaying_alt : option bool;
  file : path
}.

(** [line.split(': ')[1].strip()] *)
Definition field_value (line : string) : result string :=
  match Py.split line ": " !! 1%nat with
  | Some v => Ok (Py.strip v)
  | None => Raise IndexError
  end.

(** [int(...)] of a stripped value. *)
Definition int_value (v : string) : result Z :=
  match Py.int v with
  | Some n => Ok n
  | None => Raise (ValueError v)
  end.

(** One iteration of [for line in content.split('\n')], on the pair
    [(frame_num, displaying_alt)]. *)
Definition parse_line (line : string) (st : option Z * option bool)
  : result (option Z * option bool) :=
  if Py.startswith line "Frame:" then
    v ← field_value line; n ← int_value v; mret (Some n, st.2)
  else if Py.startswith line "DisplayingAlt:" then
    v ← field_value line; mret (st.1, Some (bool_decide (v = "true")))
  else mret st.

Fixpoint parse_lines (lines : list string) (st : option Z * option bool)
  : result (option Z * option bool) :=
  match lines with
  | [] => mret st
  | line :: rest => st' ← parse_line line st; parse_lines rest st'
  end.

Definition open_read (meta_file : path) : result string :=
  match data meta_file with
  | Readable content => Ok content
  | Unreadable msg => Raise (OSError msg)
  end.

(** The part of the [try] body that can raise: reading and parsing. *)
Definition parse_meta (meta_file : path)
  : result (string * (option Z * option bool)) :=
  content ← open_read meta_file;
  st ← parse_lines (Py.split content Py.nl) (None, None);
  mret (content, st).

Definition parsed_line (frame_num : Z) (alt : option bool) : string :=
  "Frame " +:+ Py.format_04d frame_num +:+ ": DisplayingAlt=" +:+ Py.str_opt_bool alt.

Definition error_line (meta_file : path) (e : exn) : string :=
  "Error parsing " +:+ name meta_file +:+ ": " +:+ str_exn e.

(** One iteration of [for meta_file in frame_files]: the registry after
    it, and the lines it printed. *)
Definition read_meta (meta_file : path) (frames : gmap Z frame_info)
  : gmap Z frame_info * list string :=
  match parse_meta meta_file with
  | Ok (content, (Some frame_num, alt)) =>
      (<[frame_num := {| meta := content; displaying_alt := alt; file := meta_file |}]> frames,
       [parsed_line frame_num alt])
  | Ok (_, (None, _)) => (frames, [])
  | Raise e => (frames, [error_line meta_file e])
  end.

Fixpoint read_all (frame_files : list path) (frames : gmap Z frame_info)
  : gmap Z frame_info * list string :=
  match frame_files with
  | [] => (frames, [])
  | meta_file :: rest =>
      let '(frames1, out1) := read_meta meta_file frames in
      let '(frames2, out2) := read_all rest frames1 in
      (frames2, out1 ++ out2)
  end.

(** ** The sequence check *)

(** [sorted(frames.keys())] *)
Definition frame_keys (frames : gmap Z frame_info) : list Z :=
  sorted_ints (map fst (map_to_list frames)).

(** The gap loop: [for i in range(len(frame_nums) - 1)], appending
    [(frame_nums[i], frame_nums[i+1])] when the difference is not 1. *)
Definition gap_step (frame_nums : list Z) (gaps : list (Z * Z)) (i : nat)
  : list (Z * Z) :=
  match frame_nums !! i, frame_nums !! S i with
  | Some a, Some b =>
      if bool_decide (b - a ≠ 1)%Z then gaps ++ [(a, b)] else gaps
  | _, _ => gaps
  end.

Definition find_gaps (frame_nums : list Z) : list (Z * Z) :=
  foldl (gap_step frame_nums) [] (seq 0 (length frame_nums - 1)).

(** [max(frame_nums)], called on a non-empty list only. *)
Definition py_max (l : list Z) : Z :=
  match l with
  | [] => 0
  | x :: xs => foldl Z.max x xs
  end.

Definition range_line (frame_nums : list Z) : string :=
  "Frame 0 to " +:+ Py.str_int (py_max frame_nums).

Definition gap_line (g : Z * Z) : string :=
  let '(start, end_) := g in
  "   Gap between frame " +:+ Py.str_int start +:+ " and " +:+ Py.str_int end_
    +:+ " (missing " +:+ Py.str_int (end_ - start - 1) +:+ " frames)".

Definition gap_report (frame_nums : list Z) (gaps : list (Z * Z)) : list string :=
  match gaps with
  | [] => ["✓ No gaps in frames 0 to " +:+ Py.str_int (py_max frame_nums)]
  | _ :: _ =>
      ("⚠️  Found " +:+ Py.str_len (length gaps) +:+ " gaps in frame sequence:")
        :: map gap_line gaps
  end.

(** ['Alt' if alt else 'Primary '] *)
Definition surface_label (alt : option bool) : string :=
  match alt with
  | Some true => "Alt"
  | _ => "Primary "
  end.

(** The listing line of one frame number; the key is one of
    [frames.keys()], so the lookup cannot fail. *)
Definition surface_line (frames : gmap Z frame_info) (frame_num : Z) : string :=
  let alt := frames !! frame_num ≫= displaying_alt in
  "Frame " +:+ Py.format_04d frame_num +:+ ": Surface " +:+ surface_label alt
    +:+ " being displayed".

(** The body of [if frames:]. *)
Definition sequence_check (frames : gmap Z frame_info) : list string :=
  if decide (frames = ∅) then []
  else
    let frame_nums := frame_keys frames in
    [range_line frame_nums]
      ++ gap_report frame_nums (find_gaps frame_nums)
      ++ [""; "=== Double-Buffering Pattern ==="]
      ++ map (surface_line frames) (take 10 (frame_keys frames)).

(** ** The whole run *)

Definition no_dumps_notice : string :=
  "No frame dumps found. Make sure the app ran with the new DLL.".

(** [analyze_dumps] after the two [sorted(...glob(...))] calls. *)
Definition analyze (temp_dir : string) (frame_files raw_files : list path)
  : list string :=
  [ "Temp directory: " +:+ temp_dir;
    "Found " +:+ Py.str_len (length frame_files) +:+ " metadata files";
    "Found " +:+ Py.str_len (length raw_files) +:+ " raw pixel files";
    "" ]
  ++ match frame_files with
     | [] => [no_dumps_notice]
     | _ :: _ =>
         let '(frames, parsed) := read_all frame_files ∅ in
         ["=== Frame Sequence Analysis ==="]
           ++ parsed
           ++ [""; "=== Frame Sequence Check ==="]
           ++ sequence_check frames
     end.

(** [os.environ.get("TEMP", "C:\\Windows\\Temp")] *)
Definition temp_dir_of (e : environment) : string :=
  default "C:\Windows\Temp" (TEMP e).

Definition analyze_dumps (e : environment) : list string :=
  analyze (temp_dir_of e) (sorted_paths (glob_txt e)) (sorted_paths (glob_raw e)).

(** * Definitions used to state the properties *)

(** The gap loop as a recursion over adjacent elements; [find_gaps_adjacent]
    relates it to the indexed loop of the source. *)
Fixpoint adjacent_gaps (l : list Z) : list (Z * Z) :=
  match l with
  | a :: (b :: _) as rest =>
      if bool_decide (b - a ≠ 1)%Z then (a, b) :: adjacent_gaps rest
      else adjacent_gaps rest
  | _ => []
  end.

(** A registry entry with a given flag, for examples. *)
Definition info_of (alt : option bool) : frame_info :=
  {| meta := ""; displaying_alt := alt; file := {| name := ""; data := Readable "" |} |}.

(** A registry whose frame numbers are 0, 1, 2, 5, 6 and 9. *)
Definition frames_with_gaps : gmap Z frame_info :=
  list_to_map ((λ n : Z, (n, info_of None)) <$> [0; 1; 2; 5; 6; 9]%Z).

(** [min(frame_nums)], which the script never computes; it is here to state
    the range the specification describes. *)
Definition py_min (l : list Z) : Z :=
  match l with
  | [] => 0
  | x :: xs => foldl Z.min x xs
  end.

(** The range statement as the specification describes it: from the
    minimum to the maximum frame number. *)
Definition spec_range_line (frame_nums : list Z) : string :=
  "Frame " +:+ Py.str_int (py_min frame_nums) +:+ " to "
    +:+ Py.str_int (py_max frame_nums).

(** A readable file. *)
Definition text_file (file_name content : string) : path :=
  {| name := file_name; data := Readable content |}.

(** Two dumps, frames 3 and 4. *)
Definition env_frames_3_4 : environment :=
  {| TEMP := Some "/tmp";
     glob_txt := [ text_file "gifbolt_frame_0003.txt" ("Frame: 3" +:+ Py.nl);
                   text_file "gifbolt_frame_0004.txt" ("Frame: 4" +:+ Py.nl) ];
     glob_raw := [] |}.

(** The specification's treatment of a flag that is missing or is neither
    [true] nor [false]: it stays unknown, and its listing label is neither
    the label of [False] nor that of [True]. *)
Definition listed_as_unknown (frames : gmap Z frame_info) (frame_num : Z) : Prop :=
  let alt := frames !! frame_num ≫= displaying_alt in
  alt = None
  ∧ surface_label alt ≠ surface_label (Some false)
  ∧ surface_label alt ≠ surface_label (Some true).

(** Frame 7 with the flag [maybe], and frame 7 with no flag. *)
Definition file_alt_maybe : path :=
  text_file "gifbolt_frame_0007.txt"
    ("Frame: 7" +:+ Py.nl +:+ "DisplayingAlt: maybe" +:+ Py.nl).

Definition file_alt_missing : path :=
  text_file "gifbolt_frame_0007.txt" ("Frame: 7" +:+ Py.nl).

(** Some line of the report names the file. *)
Definition reported_in (out : list string) (file_name : string) : Prop :=
  ∃ line, line ∈ out ∧ Py.contains line file_name = true.

(** Three dumps; the second has no [Frame:] line. *)
Definition env_frameless_file : environment :=
  {| TEMP := Some "/tmp";
     glob_txt :=
       [ text_file "gifbolt_frame_0001.txt"
           ("Frame: 1" +:+ Py.nl +:+ "DisplayingAlt: true" +:+ Py.nl);
         text_file "gifbolt_frame_0002.txt" ("DisplayingAlt: false" +:+ Py.nl);
         text_file "gifbolt_frame_0003.txt"
           ("Frame: 3" +:+ Py.nl +:+ "DisplayingAlt: true" +:+ Py.nl) ];
     glob_raw := [] |}.

(** The number of parsed records that replace an earlier record of the same
    frame number. *)
Fixpoint collisions (frame_files : list path) (frames : gmap Z frame_info) : nat :=
  match frame_files with
  | [] => 0
  | meta_file :: rest =>
      (match parse_meta meta_file with
       | Ok (_, (Some frame_num, _)) =>
           if decide (is_Some (frames !! frame_num)) then 1 else 0
       | _ => 0
       end) + collisions rest (read_meta meta_file frames).1
  end.

(** A report states the collision count when the count can be read from a
    line of it: there is a way [read] of reading a number off a line such
    that, in every run, some line of the report gives the number of
    collisions of the run and no line gives another number. *)
Definition states_collision_count (report : list path → list string) : Prop :=
  ∃ read : string → option nat,
    ∀ frame_files,
      (∃ line, line ∈ report frame_files
               ∧ read line = Some (collisions frame_files ∅))
      ∧ (∀ line k, line ∈ report frame_files → read line = Some k →
                   k = collisions frame_files ∅).

(** A second dump of frame 1 with the text of the first, and a dump with no
    [Frame:] line. *)
Definition file_frame_1_copy : path :=
  text_file "gifbolt_frame_0002.txt"
    ("Frame: 1" +:+ Py.nl +:+ "DisplayingAlt: true" +:+ Py.nl).

Definition file_without_frame : path :=
  text_file "gifbolt_frame_0002.txt" ("DisplayingAlt: true" +:+ Py.nl).

(** Two dumps that both say frame 1. *)
Definition file_frame_1_first : path :=
  text_file "gifbolt_frame_0001.txt"
    ("Frame: 1" +:+ Py.nl +:+ "DisplayingAlt: true" +:+ Py.nl).

Definition file_frame_1_again : path :=
  text_file "gifbolt_frame_0002.txt"
    ("Frame: 1" +:+ Py.nl +:+ "DisplayingAlt: false" +:+ Py.nl).

(** Some line of the report says that no frames were found. *)
Definition reports_no_frames (out : list string) : Prop :=
  ∃ line, line ∈ out ∧ Py.contains (Py.lower line) "no frames found" = true.

(** One dump, with no [Frame:] line. *)
Definition env_only_frameless : environment :=
  {| TEMP := Some "/tmp";
     glob_txt := [text_file "gifbolt_frame_0000.txt" ("DisplayingAlt: false" +:+ Py.nl)];
     glob_raw := [] |}.

(** No metadata file, two raw files, [TEMP] unset. *)
Definition env_no_metadata : environment :=
  {| TEMP := None;
     glob_txt := [];
     glob_raw := [ {| name := "gifbolt_frame_0001.raw"; data := Readable "" |};
                   {| name := "gifbolt_frame_0000.raw"; data := Readable "" |} ] |}.

(** The directory of [env_frameless_file], listed in another order. *)
Definition env_listed_backwards : environment :=
  {| TEMP := Some "/tmp";
     glob_txt :=
       [ text_file "gifbolt_frame_0003.txt"
           ("Frame: 3" +:+ Py.nl +:+ "DisplayingAlt: true" +:+ Py.nl);
         text_file "gifbolt_frame_0002.txt" ("DisplayingAlt: false" +:+ Py.nl);
         text_file "gifbolt_frame_0001.txt"
           ("Frame: 1" +:+ Py.nl +:+ "DisplayingAlt: true" +:+ Py.nl) ];
     glob_raw := [] |}.

(** A dump with a good [Frame:] line followed by a bad one. *)
Definition file_two_frame_lines : path :=
  text_file "gifbolt_frame_0001.txt"
    ("Frame: 1" +:+ Py.nl +:+ "Frame: x" +:+ Py.nl).

(** * Definitions used to state further properties *)

(** The metadata files give each frame number at most once. *)
Definition frame_numbers_distinct (frame_files : list path) : Prop :=
  ∀ f g n c a c' a',
    f ∈ frame_files → g ∈ frame_files →
    parse_meta f = Ok (c, (Some n, a)) →
    parse_meta g = Ok (c', (Some n, a')) →
    f = g.

(** The sum of the counts printed as [missing ... frames]. *)
Definition missing_total (gaps : list (Z * Z)) : Z :=
  foldr (λ g acc, (g.2 - g.1 - 1) + acc)%Z 0%Z gaps.

(** [f"Frame: {n}\nDisplayingAlt: {true|false}\n"]: the two lines the parser
    looks for, as a dump that records frame [n] and flag [b] has them. *)
Definition dump_text (n : Z) (b : bool) : string :=
  "Frame: " +:+ Py.str_int n +:+ Py.nl
    +:+ "DisplayingAlt: " +:+ (if b then "true" else "false") +:+ Py.nl.

(** Two dumps given in either order, and a dump with two [Frame:] lines. *)
Definition file_frame_3 : path :=
  text_file "gifbolt_frame_0003.txt" ("Frame: 3" +:+ Py.nl).

Definition file_frame_4 : path :=
  text_file "gifbolt_frame_0004.txt" ("Frame: 4" +:+ Py.nl).

Definition file_frame_1_then_2 : path :=
  text_file "gifbolt_frame_0001.txt"
    ("Frame: 1" +:+ Py.nl +:+ "Frame: 2" +:+ Py.nl).

(** A dump whose [DisplayingAlt:] line has no space after the colon. *)
Definition file_alt_without_separator : path :=
  text_file "gifbolt_frame_0001.txt"
    ("Frame: 1" +:+ Py.nl +:+ "DisplayingAlt:true" +:+ Py.nl).

(** A registry whose frame numbers are 3, 4 and 5. *)
Definition frames_3_to_5 : gmap Z frame_info :=
  list_to_map ((λ n : Z, (n, info_of None)) <$> [3; 4; 5]%Z).

(** Every character of [s] satisfies [P]. *)
Fixpoint all_chars (P : ascii → bool) (s : string) : bool :=
  match s with
  | "" => true
  | String c s' => P c && all_chars P s'
  end.

(** A character of a decimal numeral printed by [str]. *)
Definition numeral_char (c : ascii) : bool :=
  Ascii.eqb c "-" || bool_decide (is_Some (Py.digit_value c)).

(** * Properties *)

(** Closes [Hin : line ∈ [l1; ...; ln]] when [Hmention], a computable fact
    about [line], fails on every [li]. *)
Ltac no_line_mentions Hin Hmention :=
  repeat (apply elem_of_cons in Hin as [->|Hin];
          [by vm_compute in Hmention|]);
  by apply elem_of_nil in Hin.

(** ** Sorted keys of the registry *)

Section frame_keys_facts.
Context (frames : gmap Z frame_info).

Lemma frame_keys_perm : frame_keys frames ≡ₚ map fst (map_to_list frames).
Proof. apply merge_sort_Permutation. Qed.

Lemma frame_keys_NoDup : NoDup (frame_keys frames).
Proof. rewrite frame_keys_perm. apply NoDup_fst_map_to_list. Qed.

Lemma elem_of_frame_keys (n : Z) : n ∈ frame_keys frames ↔ is_Some (frames !! n).
Proof.
  rewrite frame_keys_perm, list_elem_of_fmap. split.
  - intros [[k v] [-> Hkv]]. apply elem_of_map_to_list in Hkv. by exists v.
  - intros [v Hv]. exists (n, v). split; [done|]. by apply elem_of_map_to_list.
Qed.

Lemma frame_keys_sorted : StronglySorted Z.le (frame_keys frames).
Proof. apply (StronglySorted_merge_sort Z.le). Qed.

Lemma frame_keys_nil : frame_keys frames = [] ↔ frames = ∅.
Proof.
  split.
  - intros Hnil. apply map_empty. intros n.
    destruct (frames !! n) eqn:Hn; [|done].
    assert (n ∈ frame_keys frames) as Hin by (apply elem_of_frame_keys; eauto).
    rewrite Hnil in Hin. by apply elem_of_nil in Hin.
  - intros ->. reflexivity.
Qed.

(** The sorted key list is determined by the key set. *)
Lemma frame_keys_unique (l : list Z) :
  StronglySorted Z.le l → NoDup l → (∀ n, n ∈ l ↔ n ∈ dom frames) →
  frame_keys frames = l.
Proof.
  intros Hsorted Hnodup Hdom.
  apply (StronglySorted_unique Z.le); [apply frame_keys_sorted|done|].
  apply NoDup_Permutation; [apply frame_keys_NoDup|done|].
  intros n. rewrite elem_of_frame_keys, Hdom. by rewrite elem_of_dom.
Qed.
End frame_keys_facts.

(** ** The gap scan *)

Lemma foldl_gap_step (pre rest : list Z) (acc : list (Z * Z)) :
  foldl (gap_step (pre ++ rest)) acc (seq (length pre) (length rest - 1))
  = acc ++ adjacent_gaps rest.
Proof.
  revert pre acc. induction rest as [|a rest IH]; intros pre acc.
  { simpl. by rewrite app_nil_r. }
  destruct rest as [|b rest].
  { simpl. by rewrite app_nil_r. }
  replace (length (a :: b :: rest) - 1) with (S (length (b :: rest) - 1))
    by (simpl; lia).
  rewrite <-cons_seq. simpl foldl.
  assert (gap_step (pre ++ a :: b :: rest) acc (length pre)
          = if bool_decide (b - a ≠ 1)%Z then acc ++ [(a, b)] else acc) as ->.
  { unfold gap_step.
    rewrite (lookup_app_r pre) by lia. rewrite Nat.sub_diag. simpl.
    rewrite (lookup_app_r pre) by lia.
    replace (S (length pre) - length pre) with 1 by lia. done. }
  specialize (IH (pre ++ [a])).
  rewrite <-(assoc_L (++)), length_app in IH. simpl in IH.
  replace (length pre + 1) with (S (length pre)) in IH by lia.
  rewrite IH. simpl adjacent_gaps.
  case_bool_decide; [|done]. by rewrite <-(assoc_L (++)).
Qed.

Lemma find_gaps_adjacent (l : list Z) : find_gaps l = adjacent_gaps l.
Proof. apply (foldl_gap_step [] l []). Qed.


Lemma elem_of_adjacent_gaps (l : list Z) (a b : Z) :
  (a, b) ∈ adjacent_gaps l
  ↔ ∃ i : nat, l !! i = Some a ∧ l !! S i = Some b ∧ (b - a ≠ 1)%Z.
Proof.
  induction l as [|x [|y rest] IH].
  - split; [by intros ?%elem_of_nil|by intros (i & ? & _)].
  - split; [by intros ?%elem_of_nil|]. intros (i & _ & Hi & _). by destruct i.
  - assert ((a, b) ∈ adjacent_gaps (x :: y :: rest)
            ↔ (a = x ∧ b = y ∧ (b - a ≠ 1)%Z) ∨ (a, b) ∈ adjacent_gaps (y :: rest)) as ->.
    { simpl adjacent_gaps. case_bool_decide as Hd.
      - rewrite elem_of_cons. split; intros [H|H]; auto.
        + injection H as -> ->. auto.
        + destruct H as (-> & -> & _). auto.
      - split; [auto|]. intros [(-> & -> & H)|H]; [done|auto]. }
    rewrite IH. split.
    + intros [(-> & -> & H)|(i & ? & ? & ?)]; [by exists 0|by exists (S i)].
    + intros ([|i] & Ha & Hb & ?); simpl in *.
      * left. by simplify_eq.
      * right. by exists i.
Qed.



(** ** The range statement *)

Lemma foldl_max_spec (x : Z) (xs : list Z) :
  foldl Z.max x xs ∈ x :: xs ∧ ∀ y, y ∈ x :: xs → (y ≤ foldl Z.max x xs)%Z.
Proof.
  revert x. induction xs as [|z xs IH]; intros x.
  { split; [left|]. intros y ->%list_elem_of_singleton. done. }
  simpl. destruct (IH (Z.max x z)) as [Hin Hle]. split.
  - apply elem_of_cons in Hin as [Hin|Hin]; [|by do 2 right].
    rewrite Hin. destruct (Z.max_spec x z) as [[_ ->]|[_ ->]]; [right|]; left.
  - intros y Hy.
    assert (Z.max x z ≤ foldl Z.max (Z.max x z) xs)%Z as Hmax by (apply Hle; left).
    apply elem_of_cons in Hy as [Hy|Hy]; [lia|].
    apply elem_of_cons in Hy as [Hy|Hy]; [lia|].
    apply Hle. by right.
Qed.

Lemma py_max_spec (l : list Z) :
  l ≠ [] → py_max l ∈ l ∧ ∀ y, y ∈ l → (y ≤ py_max l)%Z.
Proof. destruct l as [|x xs]; [done|]. intros _. apply foldl_max_spec. Qed.

Lemma string_length_app (s t : string) :
  String.length (s +:+ t) = String.length s + String.length t.
Proof.
  induction s as [|c s IH]; [done|].
  change (S (String.length (s +:+ t)) = S (String.length s + String.length t)).
  by rewrite IH.
Qed.

Lemma string_app_inj_r (s1 s2 t : string) : s1 +:+ t = s2 +:+ t → s1 = s2.
Proof.
  revert s2. induction s1 as [|c s1 IH]; intros [|d s2] Heq; [done| | |].
  - apply (f_equal String.length) in Heq.
    rewrite !string_length_app in Heq. simpl in Heq. lia.
  - apply (f_equal String.length) in Heq.
    rewrite !string_length_app in Heq. simpl in Heq. lia.
  - change (String c (s1 +:+ t) = String d (s2 +:+ t)) in Heq.
    injection Heq as -> Heq. f_equal. by apply IH.
Qed.

(** C2, as the code has it.  For a non-empty registry the range statement is
    the first line of the sequence check; its upper bound is the maximum
    frame number of the registry and its lower bound is the literal 0, so
    it states the interval from the minimum to the maximum exactly when the
    smallest frame number is 0. *)
Theorem range_statement_is_zero_to_max (frames : gmap Z frame_info) :
  frames ≠ ∅ →
  let hi := py_max (frame_keys frames) in
  head (sequence_check frames) = Some ("Frame 0 to " +:+ Py.str_int hi)
  ∧ is_Some (frames !! hi)
  ∧ (∀ n, is_Some (frames !! n) → (n ≤ hi)%Z)
  ∧ (∀ lo, is_Some (frames !! lo) → (∀ n, is_Some (frames !! n) → (lo ≤ n)%Z) →
       ("Frame 0 to " +:+ Py.str_int hi
        = "Frame " +:+ Py.str_int lo +:+ " to " +:+ Py.str_int hi)
       ↔ lo = 0%Z).
Proof.
  intros Hne hi.
  assert (frame_keys frames ≠ []) as Hkeys by (by rewrite frame_keys_nil).
  destruct (py_max_spec _ Hkeys) as [Hin Hle].
  split; [|split; [|split]].
  - unfold sequence_check. by destruct (decide (frames = ∅)).
  - by apply elem_of_frame_keys.
  - intros n Hn. by apply Hle, elem_of_frame_keys.
  - intros lo _ _. split.
    + change ("Frame 0 to " +:+ Py.str_int hi)
        with ("Frame " +:+ ("0" +:+ (" to " +:+ Py.str_int hi))).
      intros Heq. apply (inj (String.app "Frame ")) in Heq.
      apply string_app_inj_r in Heq.
      by apply (inj (pretty : Z → string)).
    + by intros ->.
Qed.

Lemma range_statement_witness :
  let frames : gmap Z frame_info := {[ 3%Z := info_of None ]} in
  head (sequence_check frames) = Some "Frame 0 to 3".
Proof.
  intros frames.
  exact (proj1 (range_statement_is_zero_to_max frames
                  (insert_non_empty (M:=gmap Z) ∅ 3%Z (info_of None)))).
Defined.

(** C2, as the specification words it, fails: with frames 3 and 4 the
    registry's minimum is 3, and the report says [Frame 0 to 4]. *)
Lemma range_statement_not_min_to_max :
  let frames := (read_all (sorted_paths (glob_txt env_frames_3_4)) ∅).1 in
  frame_keys frames = [3; 4]%Z
  ∧ spec_range_line (frame_keys frames) = "Frame 3 to 4"
  ∧ analyze_dumps env_frames_3_4
    = [ "Temp directory: /tmp";
        "Found 2 metadata files";
        "Found 0 raw pixel files";
        "";
        "=== Frame Sequence Analysis ===";
        "Frame 0003: DisplayingAlt=None";
        "Frame 0004: DisplayingAlt=None";
        "";
        "=== Frame Sequence Check ===";
        "Frame 0 to 4";
        "✓ No gaps in frames 0 to 4";
        "";
        "=== Double-Buffering Pattern ===";
        "Frame 0003: Surface Primary  being displayed";
        "Frame 0004: Surface Primary  being displayed" ]
  ∧ ¬ (spec_range_line (frame_keys frames) ∈ analyze_dumps env_frames_3_4).
Proof.
  intros frames.
  assert (frame_keys frames = [3; 4]%Z) as Hkeys by (by vm_compute).
  split; [done|]. rewrite Hkeys.
  split; [by vm_compute|].
  split; [by vm_compute|].
  apply (bool_decide_unpack _). by vm_compute.
Qed.

(** ** The [DisplayingAlt] flag *)

Lemma prefix_cons (a c : ascii) (p s : string) :
  String.prefix (String a p) (String c s)
  = if ascii_dec a c then String.prefix p s else false.
Proof. reflexivity. Qed.

Lemma frame_line_not_alt (line : string) :
  Py.startswith line "Frame:" = true → Py.startswith line "DisplayingAlt:" = false.
Proof.
  destruct line as [|c line]; [done|].
  unfold Py.startswith. rewrite !prefix_cons.
  destruct (ascii_dec "F" c) as [<-|?]; [|discriminate].
  intros _. by destruct (ascii_dec "D" "F").
Qed.

Lemma parse_line_alt (line : string) (st st' : option Z * option bool) :
  parse_line line st = Ok st' →
  if Py.startswith line "DisplayingAlt:"
  then ∃ v, field_value line = Ok v ∧ st'.2 = Some (bool_decide (v = "true"))
  else st'.2 = st.2.
Proof.
  unfold parse_line.
  destruct (Py.startswith line "Frame:") eqn:Hframe.
  - rewrite (frame_line_not_alt _ Hframe).
    destruct (field_value line) as [v|e]; [|done]. simpl.
    destruct (int_value v) as [n|e]; [|done]. simpl.
    by intros [= <-].
  - destruct (Py.startswith line "DisplayingAlt:").
    + destruct (field_value line) as [v|e]; [|done]. simpl.
      intros [= <-]. by exists v.
    + by intros [= <-].
Qed.

Lemma parse_lines_alt (lines : list string) (st st' : option Z * option bool) :
  parse_lines lines st = Ok st' →
  ((∀ l, l ∈ lines → Py.startswith l "DisplayingAlt:" = false) → st'.2 = st.2)
  ∧ (∀ pre l post,
       lines = pre ++ l :: post →
       Py.startswith l "DisplayingAlt:" = true →
       (∀ l', l' ∈ post → Py.startswith l' "DisplayingAlt:" = false) →
       ∃ v, field_value l = Ok v ∧ st'.2 = Some (bool_decide (v = "true"))).
Proof.
  revert st. induction lines as [|line rest IH]; intros st Hparse.
  { simpl in Hparse. injection Hparse as <-. split; [done|].
    intros [|??] ??; discriminate. }
  simpl in Hparse.
  destruct (parse_line line st) as [st1|e] eqn:Hline; [|done].
  simpl in Hparse. destruct (IH st1 Hparse) as [IHnone IHlast].
  apply parse_line_alt in Hline. split.
  - intros Hno. rewrite (Hno line) in Hline by left.
    rewrite IHnone, Hline; [done|]. intros l Hl. apply Hno. by right.
  - intros [|p pre] l post Heq Hl Hpost.
    + injection Heq as <- <-. rewrite Hl in Hline.
      destruct Hline as (v & Hv & Hst1). exists v. split; [done|].
      by rewrite IHnone.
    + injection Heq as <- ->. by apply (IHlast pre l post).
Qed.

(** C3, as the code has it.  In a file that parses, the flag is [None]
    when no line starts with [DisplayingAlt:]; otherwise it is the boolean
    [value == 'true'] of the last such line, so every token other than
    [true] gives [False].  The parse summary prints [None] as such; the
    alternation listing shows [None] and [False] alike as [Primary ]. *)
Theorem displaying_alt_is_none_or_equals_true
    (meta_file : path) (content : string) (frame_num : option Z) (alt : option bool) :
  parse_meta meta_file = Ok (content, (frame_num, alt)) →
  let lines := Py.split content Py.nl in
  ((∀ l, l ∈ lines → Py.startswith l "DisplayingAlt:" = false) → alt = None)
  ∧ (∀ pre l post,
       lines = pre ++ l :: post →
       Py.startswith l "DisplayingAlt:" = true →
       (∀ l', l' ∈ post → Py.startswith l' "DisplayingAlt:" = false) →
       ∃ v, field_value l = Ok v
            ∧ alt = Some (bool_decide (v = "true"))
            ∧ (v ≠ "true" → alt = Some false ∧ surface_label alt = "Primary "))
  ∧ Py.str_opt_bool None = "None"
  ∧ surface_label None = "Primary "
  ∧ surface_label (Some false) = "Primary "
  ∧ surface_label (Some true) = "Alt".
Proof.
  intros Hparse lines. unfold parse_meta in Hparse.
  destruct (open_read meta_file) as [c|e]; [|done]. simpl in Hparse.
  destruct (parse_lines (Py.split c Py.nl) (None, None)) as [st|e] eqn:Hlines;
    [|done].
  simpl in Hparse. injection Hparse as -> ->.
  apply parse_lines_alt in Hlines as [Hnone Hlast]. simpl in Hnone, Hlast.
  split; [exact Hnone|]. split; [|done].
  intros pre l post Heq Hl Hpost.
  destruct (Hlast pre l post Heq Hl Hpost) as (v & Hv & ->).
  exists v. split; [done|]. split; [done|].
  intros Hne. by rewrite bool_decide_eq_false_2.
Qed.

Lemma displaying_alt_maybe_is_false :
  parse_meta file_alt_maybe
  = Ok ("Frame: 7" +:+ Py.nl +:+ "DisplayingAlt: maybe" +:+ Py.nl, (Some 7%Z, Some false))
  ∧ ∃ v, field_value "DisplayingAlt: maybe" = Ok v
         ∧ Some false = Some (bool_decide (v = "true"))
         ∧ (v ≠ "true" → Some false = Some false ∧ surface_label (Some false) = "Primary ").
Proof.
  assert (parse_meta file_alt_maybe
          = Ok ("Frame: 7" +:+ Py.nl +:+ "DisplayingAlt: maybe" +:+ Py.nl,
                (Some 7%Z, Some false))) as Hparse by reflexivity.
  split; [exact Hparse|].
  apply (proj1 (proj2 (displaying_alt_is_none_or_equals_true _ _ _ _ Hparse))
           ["Frame: 7"] "DisplayingAlt: maybe" [""]).
  - reflexivity.
  - reflexivity.
  - intros l' ->%list_elem_of_singleton. reflexivity.
Defined.

(** C3, as the specification words it, fails: [maybe] is stored as [False],
    and neither it nor a missing flag gets a listing label of its own. *)
Lemma displaying_alt_unknown_not_distinct :
  let with_maybe := (read_meta file_alt_maybe ∅).1 in
  let without_flag := (read_meta file_alt_missing ∅).1 in
  with_maybe !! 7%Z ≫= displaying_alt = Some false
  ∧ surface_line with_maybe 7 = "Frame 0007: Surface Primary  being displayed"
  ∧ without_flag !! 7%Z ≫= displaying_alt = None
  ∧ surface_line without_flag 7 = "Frame 0007: Surface Primary  being displayed"
  ∧ ¬ listed_as_unknown with_maybe 7
  ∧ ¬ listed_as_unknown without_flag 7.
Proof.
  intros with_maybe without_flag.
  assert (with_maybe !! 7%Z ≫= displaying_alt = Some false) as Hmaybe
    by (by vm_compute).
  assert (without_flag !! 7%Z ≫= displaying_alt = None) as Hmissing
    by (by vm_compute).
  split; [done|]. split; [by vm_compute|].
  split; [done|]. split; [by vm_compute|].
  unfold listed_as_unknown. rewrite Hmaybe, Hmissing. split.
  - by intros [? _].
  - by intros (_ & ? & _).
Qed.

(** ** The loop over the metadata files *)

Lemma read_all_app (l1 l2 : list path) (frames : gmap Z frame_info) :
  read_all (l1 ++ l2) frames
  = ((read_all l2 (read_all l1 frames).1).1,
     (read_all l1 frames).2 ++ (read_all l2 (read_all l1 frames).1).2).
Proof.
  revert frames. induction l1 as [|f l1 IH]; intros frames.
  { simpl. by destruct (read_all l2 frames). }
  simpl. destruct (read_meta f frames) as [frames1 out1].
  rewrite IH. destruct (read_all l1 frames1) as [frames2 out2]. simpl.
  destruct (read_all l2 frames2) as [frames3 out3]. simpl.
  by rewrite (assoc_L (++)).
Qed.

Lemma read_all_cons (f : path) (rest : list path) (frames : gmap Z frame_info) :
  read_all (f :: rest) frames
  = ((read_all rest (read_meta f frames).1).1,
     (read_meta f frames).2 ++ (read_all rest (read_meta f frames).1).2).
Proof.
  simpl. destruct (read_meta f frames) as [frames1 out1]. simpl.
  by destruct (read_all rest frames1).
Qed.

Lemma parse_lines_no_frame (lines : list string) (st : option Z * option bool) :
  (∀ l, l ∈ lines → Py.startswith l "Frame:" = false) →
  (∀ l, l ∈ lines → Py.startswith l "DisplayingAlt:" = true →
        is_Some (Py.split l ": " !! 1)) →
  ∃ alt, parse_lines lines st = Ok (st.1, alt).
Proof.
  revert st. induction lines as [|line rest IH]; intros [fn alt0] Hframe Hsep.
  { by exists alt0. }
  simpl. unfold parse_line. rewrite (Hframe line) by left.
  destruct (Py.startswith line "DisplayingAlt:") eqn:Halt.
  - destruct (Hsep line) as [v Hv]; [left|done|].
    unfold field_value. rewrite Hv. simpl.
    apply (IH (fn, _)); intros l Hl; [apply Hframe|apply Hsep]; by right.
  - simpl. apply (IH (fn, alt0)); intros l Hl; [apply Hframe|apply Hsep]; by right.
Qed.

(** C4, as the code has it.  A readable file with no [Frame:] line (and
    whose [DisplayingAlt:] lines have their separator) adds nothing to the
    registry and prints nothing, not even its name; the registry and the
    lines of the whole loop are those of the run without that file, so the
    other files are processed as usual. *)
Theorem frameless_file_is_dropped_silently
    (pre post : list path) (meta_file : path) (content : string)
    (frames : gmap Z frame_info) :
  data meta_file = Readable content →
  (∀ l, l ∈ Py.split content Py.nl → Py.startswith l "Frame:" = false) →
  (∀ l, l ∈ Py.split content Py.nl → Py.startswith l "DisplayingAlt:" = true →
        is_Some (Py.split l ": " !! 1)) →
  read_meta meta_file (read_all pre frames).1 = ((read_all pre frames).1, [])
  ∧ read_all (pre ++ meta_file :: post) frames = read_all (pre ++ post) frames.
Proof.
  intros Hdata Hframe Hsep.
  assert (∀ fr, read_meta meta_file fr = (fr, [])) as Hskip.
  { intros fr. unfold read_meta, parse_meta, open_read. rewrite Hdata. simpl.
    destruct (parse_lines_no_frame _ (None, None) Hframe Hsep) as [alt ->].
    done. }
  split; [apply Hskip|].
  rewrite !read_all_app, read_all_cons, Hskip. done.
Qed.

Lemma frameless_file_is_dropped_silently_witness :
  read_all (sorted_paths (glob_txt env_frameless_file)) ∅
  = read_all [ text_file "gifbolt_frame_0001.txt"
                 ("Frame: 1" +:+ Py.nl +:+ "DisplayingAlt: true" +:+ Py.nl);
               text_file "gifbolt_frame_0003.txt"
                 ("Frame: 3" +:+ Py.nl +:+ "DisplayingAlt: true" +:+ Py.nl) ] ∅.
Proof.
  refine (proj2 (frameless_file_is_dropped_silently
    [text_file "gifbolt_frame_0001.txt"
       ("Frame: 1" +:+ Py.nl +:+ "DisplayingAlt: true" +:+ Py.nl)]
    [text_file "gifbolt_frame_0003.txt"
       ("Frame: 3" +:+ Py.nl +:+ "DisplayingAlt: true" +:+ Py.nl)]
    (text_file "gifbolt_frame_0002.txt" ("DisplayingAlt: false" +:+ Py.nl))
    ("DisplayingAlt: false" +:+ Py.nl) ∅ eq_refl _ _)).
  - intros l Hl. vm_compute in Hl.
    apply elem_of_cons in Hl as [->|Hl]; [reflexivity|].
    apply list_elem_of_singleton in Hl as ->. reflexivity.
  - intros l Hl Hstart. vm_compute in Hl.
    apply elem_of_cons in Hl as [->|Hl]; [eexists; vm_compute; reflexivity|].
    apply list_elem_of_singleton in Hl as ->. discriminate Hstart.
Defined.

(** C4, as the specification words it, fails: the file without a [Frame:]
    line is dropped, and no line of the report names it. *)
Lemma frameless_file_not_reported :
  analyze_dumps env_frameless_file
  = [ "Temp directory: /tmp";
      "Found 3 metadata files";
      "Found 0 raw pixel files";
      "";
      "=== Frame Sequence Analysis ===";
      "Frame 0001: DisplayingAlt=True";
      "Frame 0003: DisplayingAlt=True";
      "";
      "=== Frame Sequence Check ===";
      "Frame 0 to 3";
      "⚠️  Found 1 gaps in frame sequence:";
      "   Gap between frame 1 and 3 (missing 1 frames)";
      "";
      "=== Double-Buffering Pattern ===";
      "Frame 0001: Surface Alt being displayed";
      "Frame 0003: Surface Alt being displayed" ]
  ∧ ¬ reported_in (analyze_dumps env_frameless_file) "gifbolt_frame_0002.txt".
Proof.
  assert (analyze_dumps env_frameless_file
          = [ "Temp directory: /tmp";
              "Found 3 metadata files";
              "Found 0 raw pixel files";
              "";
              "=== Frame Sequence Analysis ===";
              "Frame 0001: DisplayingAlt=True";
              "Frame 0003: DisplayingAlt=True";
              "";
              "=== Frame Sequence Check ===";
              "Frame 0 to 3";
              "⚠️  Found 1 gaps in frame sequence:";
              "   Gap between frame 1 and 3 (missing 1 frames)";
              "";
              "=== Double-Buffering Pattern ===";
              "Frame 0001: Surface Alt being displayed";
              "Frame 0003: Surface Alt being displayed" ]) as Hout
    by (by vm_compute).
  split; [exact Hout|].
  rewrite Hout. intros (line & Hin & Hmention).
  no_line_mentions Hin Hmention.
Qed.

(** ** Repeated frame numbers *)

Lemma read_meta_lookup_ne (meta_file : path) (frames : gmap Z frame_info) (n : Z) :
  (∀ c a, parse_meta meta_file ≠ Ok (c, (Some n, a))) →
  (read_meta meta_file frames).1 !! n = frames !! n.
Proof.
  intros Hne. unfold read_meta.
  destruct (parse_meta meta_file) as [[c [[k|] a]]|e]; [|done..].
  simpl. apply lookup_insert_ne. intros ->. by apply (Hne c a).
Qed.

Lemma read_all_lookup_ne (frame_files : list path) (frames : gmap Z frame_info) (n : Z) :
  (∀ g, g ∈ frame_files → ∀ c a, parse_meta g ≠ Ok (c, (Some n, a))) →
  (read_all frame_files frames).1 !! n = frames !! n.
Proof.
  revert frames. induction frame_files as [|f rest IH]; intros frames Hne; [done|].
  rewrite read_all_cons. simpl. rewrite IH.
  - apply read_meta_lookup_ne, Hne. left.
  - intros g Hg. apply Hne. by right.
Qed.

Lemma read_meta_printed (meta_file : path) (frames frames' : gmap Z frame_info) :
  (read_meta meta_file frames).2 = (read_meta meta_file frames').2.
Proof.
  unfold read_meta. by destruct (parse_meta meta_file) as [[c [[k|] a]]|e].
Qed.

Lemma read_all_printed (frame_files : list path) (frames : gmap Z frame_info) :
  (read_all frame_files frames).2
  = frame_files ≫= (λ g, (read_meta g ∅).2).
Proof.
  revert frames. induction frame_files as [|f rest IH]; intros frames; [done|].
  rewrite read_all_cons. simpl. rewrite IH.
  by rewrite (read_meta_printed f frames ∅).
Qed.

Lemma analyze_cons (temp_dir : string) (f : path) (fs raw_files : list path) :
  analyze temp_dir (f :: fs) raw_files
  = [ "Temp directory: " +:+ temp_dir;
      "Found " +:+ Py.str_len (length (f :: fs)) +:+ " metadata files";
      "Found " +:+ Py.str_len (length raw_files) +:+ " raw pixel files";
      "";
      "=== Frame Sequence Analysis ===" ]
    ++ (read_all (f :: fs) ∅).2
    ++ [""; "=== Frame Sequence Check ==="]
    ++ sequence_check (read_all (f :: fs) ∅).1.
Proof. unfold analyze. by destruct (read_all (f :: fs) ∅). Qed.

(** The sections after the loop read the registry through its frame numbers
    and their flags only. *)
Lemma sequence_check_flags (frames1 frames2 : gmap Z frame_info) :
  displaying_alt <$> frames1 = displaying_alt <$> frames2 →
  sequence_check frames1 = sequence_check frames2.
Proof.
  intros Hflags.
  assert (∀ n, displaying_alt <$> frames1 !! n = displaying_alt <$> frames2 !! n)
    as Hlookup.
  { intros n. by rewrite <-!lookup_fmap, Hflags. }
  assert (frame_keys frames1 = frame_keys frames2) as Hkeys.
  { apply frame_keys_unique;
      [apply frame_keys_sorted|apply frame_keys_NoDup|].
    intros n. rewrite elem_of_frame_keys, elem_of_dom.
    specialize (Hlookup n).
    destruct (frames1 !! n), (frames2 !! n); simpl in Hlookup;
      try discriminate; split; intros [? ?]; try discriminate; eauto. }
  assert (frames1 = ∅ ↔ frames2 = ∅) as Hempty
    by (by rewrite <-!frame_keys_nil, Hkeys).
  unfold sequence_check. rewrite Hkeys.
  destruct (decide (frames1 = ∅)) as [H1|H1], (decide (frames2 = ∅)) as [H2|H2];
    [done|by destruct H2; apply Hempty|by destruct H1; apply Hempty|].
  do 3 f_equal. apply map_ext. intros n. unfold surface_line.
  specialize (Hlookup n).
  destruct (frames1 !! n), (frames2 !! n); simpl in *; congruence.
Qed.

(** Two runs whose reports have the same lines, the second summary line of
    the first run apart, with one collision in the first and none in the
    second: no reading of single lines tells them apart. *)
Lemma no_line_states_collisions (temp_dir : string) (raw_files : list path) :
  ¬ states_collision_count (λ frame_files, analyze temp_dir frame_files raw_files).
Proof.
  intros [read Hread].
  destruct (Hread [file_frame_1_first; file_frame_1_copy])
    as [(line & Hin & Hline) _].
  destruct (Hread [file_frame_1_first; file_without_frame]) as [_ Hother].
  assert (collisions [file_frame_1_first; file_frame_1_copy] ∅ = 1) as H1
    by (by vm_compute).
  assert (collisions [file_frame_1_first; file_without_frame] ∅ = 0) as H0
    by (by vm_compute).
  rewrite H1 in Hline. rewrite H0 in Hother.
  specialize (Hother line 1). cut (1 = 0); [done|]. apply Hother; [|done].
  rewrite analyze_cons in Hin |- *.
  assert ((read_all [file_frame_1_first; file_frame_1_copy] ∅).2
          = ["Frame 0001: DisplayingAlt=True"; "Frame 0001: DisplayingAlt=True"])
    as Hlines1 by (by vm_compute).
  assert ((read_all [file_frame_1_first; file_without_frame] ∅).2
          = ["Frame 0001: DisplayingAlt=True"]) as Hlines0 by (by vm_compute).
  assert (sequence_check (read_all [file_frame_1_first; file_frame_1_copy] ∅).1
          = sequence_check (read_all [file_frame_1_first; file_without_frame] ∅).1)
    as Hcheck by (by vm_compute).
  rewrite Hlines1, Hcheck in Hin. rewrite Hlines0.
  change (length [file_frame_1_first; file_frame_1_copy]) with 2 in Hin.
  change (length [file_frame_1_first; file_without_frame]) with 2.
  rewrite !elem_of_app in Hin |- *.
  rewrite !elem_of_cons in Hin. rewrite !elem_of_cons. tauto.
Qed.

(** C6, as the code has it.  When several parsed records carry one frame
    number the registry holds the last of them, and no count of the
    replaced records is reported.  The line printed for a file is the same
    whatever the registry already holds; the whole report is the heading
    lines, the lines of the files taken one by one, and the sequence check
    of the final registry, which reads only its frame numbers and flags;
    and no reading of single lines of the report yields the number of
    collisions. *)
Theorem last_record_wins_and_no_count
    (pre post : list path) (meta_file : path) (content : string)
    (frame_num : Z) (alt : option bool) (frames : gmap Z frame_info) :
  parse_meta meta_file = Ok (content, (Some frame_num, alt)) →
  (∀ g, g ∈ post → ∀ c a, parse_meta g ≠ Ok (c, (Some frame_num, a))) →
  (read_all (pre ++ meta_file :: post) frames).1 !! frame_num
  = Some {| meta := content; displaying_alt := alt; file := meta_file |}
  ∧ (∀ earlier, (read_meta meta_file earlier).2 = [parsed_line frame_num alt])
  ∧ (read_all (pre ++ meta_file :: post) frames).2
    = (pre ++ meta_file :: post) ≫= (λ g, (read_meta g ∅).2)
  ∧ (∀ temp_dir raw_files,
       analyze temp_dir (pre ++ meta_file :: post) raw_files
       = [ "Temp directory: " +:+ temp_dir;
           "Found " +:+ Py.str_len (length (pre ++ meta_file :: post))
             +:+ " metadata files";
           "Found " +:+ Py.str_len (length raw_files) +:+ " raw pixel files";
           "";
           "=== Frame Sequence Analysis ===" ]
         ++ ((pre ++ meta_file :: post) ≫= (λ g, (read_meta g ∅).2))
         ++ [""; "=== Frame Sequence Check ==="]
         ++ sequence_check (read_all (pre ++ meta_file :: post) ∅).1)
  ∧ (∀ frames1 frames2 : gmap Z frame_info,
       displaying_alt <$> frames1 = displaying_alt <$> frames2 →
       sequence_check frames1 = sequence_check frames2)
  ∧ (∀ temp_dir raw_files,
       ¬ states_collision_count
           (λ frame_files, analyze temp_dir frame_files raw_files)).
Proof.
  intros Hparse Hlater. split; [|split; [|split; [|split; [|split]]]].
  - rewrite read_all_app, read_all_cons. simpl.
    rewrite read_all_lookup_ne by done.
    unfold read_meta. rewrite Hparse. simpl. apply lookup_insert_eq.
  - intros earlier. unfold read_meta. by rewrite Hparse.
  - apply read_all_printed.
  - intros temp_dir raw_files.
    destruct (pre ++ meta_file :: post) as [|f fs] eqn:Hfiles.
    { by destruct pre. }
    by rewrite analyze_cons, read_all_printed.
  - apply sequence_check_flags.
  - apply no_line_states_collisions.
Qed.

Lemma last_record_wins_witness :
  (read_all [file_frame_1_first; file_frame_1_again] ∅).1 !! 1%Z
  = Some {| meta := "Frame: 1" +:+ Py.nl +:+ "DisplayingAlt: false" +:+ Py.nl;
            displaying_alt := Some false;
            file := file_frame_1_again |}.
Proof.
  refine (proj1 (last_record_wins_and_no_count
    [file_frame_1_first] [] file_frame_1_again
    ("Frame: 1" +:+ Py.nl +:+ "DisplayingAlt: false" +:+ Py.nl)
    1%Z (Some false) ∅ eq_refl _)).
  intros g Hg. by apply elem_of_nil in Hg.
Defined.

(** C6, as the specification words it, fails: no line of the report, per-file
    lines included, gives the number of collisions.  A run in which frame 1
    is written twice and a run in which it is written once print the same
    lines, the first run printing its summary line twice; the first has one
    collision and the second none, so whatever number is read off a line
    of the one is read off the same line of the other. *)
Lemma collision_count_not_stated :
  collisions [file_frame_1_first; file_frame_1_copy] ∅ = 1
  ∧ collisions [file_frame_1_first; file_without_frame] ∅ = 0
  ∧ analyze "/tmp" [file_frame_1_first; file_frame_1_copy] []
    = [ "Temp directory: /tmp";
        "Found 2 metadata files";
        "Found 0 raw pixel files";
        "";
        "=== Frame Sequence Analysis ===";
        "Frame 0001: DisplayingAlt=True";
        "Frame 0001: DisplayingAlt=True";
        "";
        "=== Frame Sequence Check ===";
        "Frame 0 to 1";
        "✓ No gaps in frames 0 to 1";
        "";
        "=== Double-Buffering Pattern ===";
        "Frame 0001: Surface Alt being displayed" ]
  ∧ analyze "/tmp" [file_frame_1_first; file_without_frame] []
    = [ "Temp directory: /tmp";
        "Found 2 metadata files";
        "Found 0 raw pixel files";
        "";
        "=== Frame Sequence Analysis ===";
        "Frame 0001: DisplayingAlt=True";
        "";
        "=== Frame Sequence Check ===";
        "Frame 0 to 1";
        "✓ No gaps in frames 0 to 1";
        "";
        "=== Double-Buffering Pattern ===";
        "Frame 0001: Surface Alt being displayed" ]
  ∧ ¬ states_collision_count (λ frame_files, analyze "/tmp" frame_files []).
Proof.
  split; [by vm_compute|]. split; [by vm_compute|].
  split; [by vm_compute|]. split; [by vm_compute|].
  apply no_line_states_collisions.
Qed.

(** ** Empty results *)

Lemma length_sorted_paths (l : list path) : length (sorted_paths l) = length l.
Proof. apply Permutation_length, merge_sort_Permutation. Qed.

(** C7, as the code has it.  When metadata files were found and none of
    them gave a frame number, the report is the heading lines, the lines of
    the loop, a blank line and the heading of the sequence check, and it ends
    there: nothing is printed under that heading. *)
Theorem empty_registry_report_ends_at_heading
    (temp_dir : string) (frame_files raw_files : list path) :
  frame_files ≠ [] →
  (read_all frame_files ∅).1 = ∅ →
  analyze temp_dir frame_files raw_files
  = [ "Temp directory: " +:+ temp_dir;
      "Found " +:+ Py.str_len (length frame_files) +:+ " metadata files";
      "Found " +:+ Py.str_len (length raw_files) +:+ " raw pixel files";
      "";
      "=== Frame Sequence Analysis ===" ]
    ++ (read_all frame_files ∅).2
    ++ [""; "=== Frame Sequence Check ==="]
  ∧ last (analyze temp_dir frame_files raw_files)
    = Some "=== Frame Sequence Check ===".
Proof.
  intros Hfiles Hempty.
  assert (analyze temp_dir frame_files raw_files
          = [ "Temp directory: " +:+ temp_dir;
              "Found " +:+ Py.str_len (length frame_files) +:+ " metadata files";
              "Found " +:+ Py.str_len (length raw_files) +:+ " raw pixel files";
              "";
              "=== Frame Sequence Analysis ===" ]
            ++ (read_all frame_files ∅).2
            ++ [""; "=== Frame Sequence Check ==="]) as Hout.
  { unfold analyze. destruct frame_files as [|f fs]; [done|].
    destruct (read_all (f :: fs) ∅) as [frames parsed]. simpl in Hempty.
    subst frames. unfold sequence_check.
    rewrite decide_True by done. by rewrite app_nil_r. }
  split; [exact Hout|]. rewrite Hout.
  by rewrite !last_app.
Qed.

Lemma empty_registry_report_witness :
  last (analyze_dumps env_only_frameless) = Some "=== Frame Sequence Check ===".
Proof.
  refine (proj2 (empty_registry_report_ends_at_heading "/tmp"
    [text_file "gifbolt_frame_0000.txt" ("DisplayingAlt: false" +:+ Py.nl)] [] _ _)).
  - discriminate.
  - reflexivity.
Defined.

(** C7, as the specification words it, fails: with one metadata file that
    has no [Frame:] line, no line of the report says that no frames were
    found. *)
Lemma empty_registry_prints_no_notice :
  analyze_dumps env_only_frameless
  = [ "Temp directory: /tmp";
      "Found 1 metadata files";
      "Found 0 raw pixel files";
      "";
      "=== Frame Sequence Analysis ===";
      "";
      "=== Frame Sequence Check ===" ]
  ∧ ¬ reports_no_frames (analyze_dumps env_only_frameless).
Proof.
  assert (analyze_dumps env_only_frameless
          = [ "Temp directory: /tmp";
              "Found 1 metadata files";
              "Found 0 raw pixel files";
              "";
              "=== Frame Sequence Analysis ===";
              "";
              "=== Frame Sequence Check ===" ]) as Hout by (by vm_compute).
  split; [exact Hout|].
  rewrite Hout. intros (line & Hin & Hmention).
  no_line_mentions Hin Hmention.
Qed.

(** C8.  When no metadata file is found, the report is the directory, the
    two counts, a blank line and the notice that no frame dumps were found;
    the run returns after it, with no sequence check and no listing. *)
Theorem no_metadata_files_prints_notice_only (e : environment) :
  glob_txt e = [] →
  analyze_dumps e
  = [ "Temp directory: " +:+ temp_dir_of e;
      "Found 0 metadata files";
      "Found " +:+ Py.str_len (length (glob_raw e)) +:+ " raw pixel files";
      "";
      "No frame dumps found. Make sure the app ran with the new DLL." ].
Proof.
  intros Hnone. unfold analyze_dumps, analyze.
  rewrite Hnone, !length_sorted_paths. reflexivity.
Qed.

Lemma no_metadata_files_witness :
  analyze_dumps env_no_metadata
  = [ "Temp directory: C:\Windows\Temp";
      "Found 0 metadata files";
      "Found 2 raw pixel files";
      "";
      "No frame dumps found. Make sure the app ran with the new DLL." ].
Proof. exact (no_metadata_files_prints_notice_only env_no_metadata eq_refl). Defined.

(** ** Determinism *)

#[local] Instance path_le_trans : Transitive path_le.
Proof. intros p q r. unfold path_le. apply transitivity. Qed.

#[local] Instance path_le_total : Total path_le.
Proof. intros p q. unfold path_le. apply total, _. Qed.

Lemma NoDup_fmap_inj_on {A B} (f : A → B) (l : list A) (x y : A) :
  NoDup (f <$> l) → x ∈ l → y ∈ l → f x = f y → x = y.
Proof.
  induction l as [|a l IH]; intros Hnd Hx Hy Hxy.
  { by apply elem_of_nil in Hx. }
  rewrite fmap_cons in Hnd. apply NoDup_cons in Hnd as [Hnotin Hnd].
  apply elem_of_cons in Hx as [->|Hx]; apply elem_of_cons in Hy as [->|Hy].
  - done.
  - destruct Hnotin. rewrite Hxy. by apply list_elem_of_fmap_2.
  - destruct Hnotin. rewrite <-Hxy. by apply list_elem_of_fmap_2.
  - by apply IH.
Qed.

(** [sorted] undoes the order in which the directory was listed, as file
    names are distinct within a directory. *)
Lemma sorted_paths_perm (l1 l2 : list path) :
  NoDup (name <$> l1) → l1 ≡ₚ l2 → sorted_paths l1 = sorted_paths l2.
Proof.
  intros Hnd Hperm. unfold sorted_paths.
  apply (StronglySorted_unique_strong path_le).
  - intros x1 x2 Hx1 Hx2 H12 H21.
    rewrite merge_sort_Permutation in Hx1.
    rewrite merge_sort_Permutation, <-Hperm in Hx2.
    apply (NoDup_fmap_inj_on name l1); [done..|].
    by apply (anti_symm String.le).
  - apply (StronglySorted_merge_sort path_le).
  - apply (StronglySorted_merge_sort path_le).
  - by rewrite !merge_sort_Permutation.
Qed.

(** C9.  The report is a function of the [TEMP] setting and of the files
    the two patterns match, whatever the order in which the directory lists
    them: two runs over the same directory content print the same lines. *)
Theorem report_determined_by_directory_content (e1 e2 : environment) :
  TEMP e1 = TEMP e2 →
  NoDup (name <$> glob_txt e1) →
  glob_txt e1 ≡ₚ glob_txt e2 →
  glob_raw e1 ≡ₚ glob_raw e2 →
  analyze_dumps e1 = analyze_dumps e2.
Proof.
  intros Htemp Hnd Htxt Hraw. unfold analyze_dumps, temp_dir_of.
  rewrite Htemp, (sorted_paths_perm _ _ Hnd Htxt).
  unfold analyze. by rewrite !length_sorted_paths, (Permutation_length Hraw).
Qed.

Lemma report_determined_witness :
  analyze_dumps env_listed_backwards = analyze_dumps env_frameless_file.
Proof.
  apply report_determined_by_directory_content.
  - reflexivity.
  - apply (bool_decide_unpack _). by vm_compute.
  - apply (bool_decide_unpack _). by vm_compute.
  - reflexivity.
Defined.

(** ** Rejected files *)

Lemma parse_line_raises (line : string) (st : option Z * option bool) (e : exn) :
  parse_line line st = Raise e → e = IndexError ∨ ∃ v, e = ValueError v.
Proof.
  unfold parse_line, field_value, int_value.
  destruct (Py.startswith line "Frame:").
  - destruct (Py.split line ": " !! 1) as [v|]; simpl; [|intros [= <-]; by left].
    destruct (Py.int (Py.strip v)); simpl; [done|]. intros [= <-]. right. eauto.
  - destruct (Py.startswith line "DisplayingAlt:"); [|done].
    destruct (Py.split line ": " !! 1) as [v|]; simpl; [done|].
    intros [= <-]. by left.
Qed.

Lemma parse_lines_bad_frame (lines : list string) (line : string)
    (st : option Z * option bool) :
  line ∈ lines →
  Py.startswith line "Frame:" = true →
  (∀ n, field_value line ≫= int_value ≠ Ok n) →
  ∃ e, parse_lines lines st = Raise e ∧ (e = IndexError ∨ ∃ v, e = ValueError v).
Proof.
  intros Hin Hstart Hbad. revert st.
  induction lines as [|l rest IH]; intros st.
  { by apply elem_of_nil in Hin. }
  simpl. destruct (parse_line l st) as [st1|e] eqn:Hl.
  - simpl. apply elem_of_cons in Hin as [<-|Hin]; [|by apply IH].
    unfold parse_line in Hl. rewrite Hstart in Hl.
    destruct (field_value line ≫= int_value) as [n|e] eqn:Hv.
    + by destruct (Hbad n).
    + destruct (field_value line) as [v|]; [|done]. simpl in Hl, Hv.
      by rewrite Hv in Hl.
  - exists e. split; [done|]. by apply parse_line_raises in Hl.
Qed.

(** C10.  If some line of a readable metadata file starts with [Frame:] and
    has no [': '] separator or no valid integer after it, the file is
    rejected as a whole: the registry is left as it was, whatever the other
    lines of the file say, and one error line naming the file is printed. *)
Theorem bad_frame_line_rejects_file
    (meta_file : path) (content line : string) (frames : gmap Z frame_info) :
  data meta_file = Readable content →
  line ∈ Py.split content Py.nl →
  Py.startswith line "Frame:" = true →
  (∀ n, field_value line ≫= int_value ≠ Ok n) →
  ∃ e, (e = IndexError ∨ ∃ v, e = ValueError v)
       ∧ parse_meta meta_file = Raise e
       ∧ read_meta meta_file frames
         = (frames, ["Error parsing " +:+ name meta_file +:+ ": " +:+ str_exn e]).
Proof.
  intros Hdata Hin Hstart Hbad.
  destruct (parse_lines_bad_frame _ _ (None, None) Hin Hstart Hbad)
    as (e & Hraise & Hkind).
  exists e. split; [done|].
  assert (parse_meta meta_file = Raise e) as Hparse.
  { unfold parse_meta, open_read. rewrite Hdata. simpl. by rewrite Hraise. }
  split; [done|]. unfold read_meta. by rewrite Hparse.
Qed.

Lemma bad_frame_line_witness :
  ∃ e, (e = IndexError ∨ ∃ v, e = ValueError v)
       ∧ parse_meta file_two_frame_lines = Raise e
       ∧ read_meta file_two_frame_lines ∅
         = (∅, ["Error parsing " +:+ name file_two_frame_lines +:+ ": " +:+ str_exn e]).
Proof.
  apply (bad_frame_line_rejects_file file_two_frame_lines
           ("Frame: 1" +:+ Py.nl +:+ "Frame: x" +:+ Py.nl) "Frame: x" ∅).
  - reflexivity.
  - apply (bool_decide_unpack _). by vm_compute.
  - reflexivity.
  - intros n Hn. vm_compute in Hn. discriminate Hn.
Defined.

(** * Further properties *)

(** ** The frame number of a file *)

Lemma parse_line_frame (line : string) (st st' : option Z * option bool) :
  parse_line line st = Ok st' →
  if Py.startswith line "Frame:"
  then ∃ v n, field_value line = Ok v ∧ Py.int v = Some n ∧ st'.1 = Some n
  else st'.1 = st.1.
Proof.
  unfold parse_line.
  destruct (Py.startswith line "Frame:").
  - destruct (field_value line) as [v|e]; [|done]. simpl.
    unfold int_value. destruct (Py.int v) as [n|] eqn:Hn; [|done]. simpl.
    intros [= <-]. by exists v, n.
  - destruct (Py.startswith line "DisplayingAlt:").
    + destruct (field_value line) as [v|e]; [|done]. simpl. by intros [= <-].
    + by intros [= <-].
Qed.

Lemma parse_lines_frame (lines : list string) (st st' : option Z * option bool) :
  parse_lines lines st = Ok st' →
  ((∀ l, l ∈ lines → Py.startswith l "Frame:" = false) → st'.1 = st.1)
  ∧ (∀ pre l post,
       lines = pre ++ l :: post →
       Py.startswith l "Frame:" = true →
       (∀ l', l' ∈ post → Py.startswith l' "Frame:" = false) →
       ∃ v n, field_value l = Ok v ∧ Py.int v = Some n ∧ st'.1 = Some n).
Proof.
  revert st. induction lines as [|line rest IH]; intros st Hparse.
  { simpl in Hparse. injection Hparse as <-. split; [done|].
    intros [|??] ??; discriminate. }
  simpl in Hparse.
  destruct (parse_line line st) as [st1|e] eqn:Hline; [|done].
  simpl in Hparse. destruct (IH st1 Hparse) as [IHnone IHlast].
  apply parse_line_frame in Hline. split.
  - intros Hno. rewrite (Hno line) in Hline by left.
    rewrite IHnone, Hline; [done|]. intros l Hl. apply Hno. by right.
  - intros [|p pre] l post Heq Hl Hpost.
    + injection Heq as <- <-. rewrite Hl in Hline.
      destruct Hline as (v & n & Hv & Hn & Hst1). exists v, n.
      split; [done|]. split; [done|]. by rewrite IHnone.
    + injection Heq as <- ->. by apply (IHlast pre l post).
Qed.

(** X1.  In a file that parses, the frame number is [None] when no line
    starts with [Frame:], and otherwise is the integer of the last such
    line: a later [Frame:] line replaces an earlier one. *)
Theorem frame_number_is_last_frame_line
    (meta_file : path) (content : string) (frame_num : option Z) (alt : option bool) :
  parse_meta meta_file = Ok (content, (frame_num, alt)) →
  let lines := Py.split content Py.nl in
  data meta_file = Readable content
  ∧ ((∀ l, l ∈ lines → Py.startswith l "Frame:" = false) → frame_num = None)
  ∧ (∀ pre l post,
       lines = pre ++ l :: post →
       Py.startswith l "Frame:" = true →
       (∀ l', l' ∈ post → Py.startswith l' "Frame:" = false) →
       ∃ v n, field_value l = Ok v ∧ Py.int v = Some n ∧ frame_num = Some n).
Proof.
  intros Hparse lines. unfold parse_meta, open_read in Hparse.
  destruct (data meta_file) as [c|msg] eqn:Hdata; [|done]. simpl in Hparse.
  destruct (parse_lines (Py.split c Py.nl) (None, None)) as [st|e] eqn:Hlines;
    [|done].
  simpl in Hparse. injection Hparse as -> ->.
  apply parse_lines_frame in Hlines as [Hnone Hlast].
  split; [done|]. split; [exact Hnone|exact Hlast].
Qed.

Lemma frame_number_is_last_frame_line_witness :
  ∃ v n, field_value "Frame: 2" = Ok v ∧ Py.int v = Some n ∧ Some 2%Z = Some n.
Proof.
  refine (proj2 (proj2 (frame_number_is_last_frame_line file_frame_1_then_2
    ("Frame: 1" +:+ Py.nl +:+ "Frame: 2" +:+ Py.nl) (Some 2%Z) None eq_refl))
    ["Frame: 1"] "Frame: 2" [""] eq_refl eq_refl _).
  intros l' ->%list_elem_of_singleton. reflexivity.
Defined.

(** ** Lines that raise *)

Lemma parse_lines_raising_line (lines : list string) (line : string)
    (st : option Z * option bool) :
  line ∈ lines →
  (∀ st0, ∃ e, parse_line line st0 = Raise e) →
  ∃ e, parse_lines lines st = Raise e ∧ (e = IndexError ∨ ∃ v, e = ValueError v).
Proof.
  intros Hin Hbad. revert st.
  induction lines as [|l rest IH]; intros st.
  { by apply elem_of_nil in Hin. }
  simpl. destruct (parse_line l st) as [st1|e] eqn:Hl.
  - simpl. apply elem_of_cons in Hin as [<-|Hin]; [|by apply IH].
    destruct (Hbad st) as [e He]. by rewrite He in Hl.
  - exists e. split; [done|]. by apply parse_line_raises in Hl.
Qed.

(** X2.  A [DisplayingAlt:] line without the [': '] separator makes
    [split(': ')[1]] raise, so the whole file is rejected, valid [Frame:]
    line or not: the registry is left as it was and one error line naming
    the file is printed. *)
Theorem alt_line_without_separator_rejects_file
    (meta_file : path) (content line : string) (frames : gmap Z frame_info) :
  data meta_file = Readable content →
  line ∈ Py.split content Py.nl →
  Py.startswith line "DisplayingAlt:" = true →
  Py.split line ": " !! 1 = None →
  ∃ e, (e = IndexError ∨ ∃ v, e = ValueError v)
       ∧ parse_meta meta_file = Raise e
       ∧ read_meta meta_file frames
         = (frames, ["Error parsing " +:+ name meta_file +:+ ": " +:+ str_exn e]).
Proof.
  intros Hdata Hin Hstart Hsep.
  assert (∀ st0, ∃ e, parse_line line st0 = Raise e) as Hbad.
  { intros st0. exists IndexError. unfold parse_line, field_value.
    rewrite Hsep, Hstart.
    destruct (Py.startswith line "Frame:"); reflexivity. }
  destruct (parse_lines_raising_line _ _ (None, None) Hin Hbad)
    as (e & Hraise & Hkind).
  exists e. split; [done|].
  assert (parse_meta meta_file = Raise e) as Hparse.
  { unfold parse_meta, open_read. rewrite Hdata. simpl. by rewrite Hraise. }
  split; [done|]. unfold read_meta. by rewrite Hparse.
Qed.

Lemma alt_line_without_separator_witness :
  ∃ e, (e = IndexError ∨ ∃ v, e = ValueError v)
       ∧ parse_meta file_alt_without_separator = Raise e
       ∧ read_meta file_alt_without_separator ∅
         = (∅, ["Error parsing " +:+ name file_alt_without_separator
                  +:+ ": " +:+ str_exn e]).
Proof.
  apply (alt_line_without_separator_rejects_file file_alt_without_separator
           ("Frame: 1" +:+ Py.nl +:+ "DisplayingAlt:true" +:+ Py.nl)
           "DisplayingAlt:true" ∅).
  - reflexivity.
  - apply (bool_decide_unpack _). by vm_compute.
  - reflexivity.
  - reflexivity.
Defined.

(** ** The registry built by the loop *)

Lemma read_meta_lookup_Some (meta_file : path) (frames : gmap Z frame_info)
    (n : Z) (r : frame_info) :
  (read_meta meta_file frames).1 !! n = Some r →
  frames !! n = Some r
  ∨ (file r = meta_file
     ∧ parse_meta meta_file = Ok (meta r, (Some n, displaying_alt r))).
Proof.
  unfold read_meta.
  destruct (parse_meta meta_file) as [[c [[k|] a]]|e]; simpl; auto.
  intros [[<- <-]|[_ ?]]%lookup_insert_Some; auto.
Qed.

Lemma read_all_lookup_Some (frame_files : list path) (frames : gmap Z frame_info)
    (n : Z) (r : frame_info) :
  (read_all frame_files frames).1 !! n = Some r →
  frames !! n = Some r
  ∨ (file r ∈ frame_files
     ∧ parse_meta (file r) = Ok (meta r, (Some n, displaying_alt r))).
Proof.
  revert frames. induction frame_files as [|f rest IH]; intros frames; [by left|].
  rewrite read_all_cons. simpl. intros [Hr|[Hin Hparse]]%IH.
  - apply read_meta_lookup_Some in Hr as [?|[<- ?]]; [by left|].
    right. split; [left|done].
  - right. split; [by right|done].
Qed.

Lemma read_meta_lookup_is_Some (meta_file : path) (frames : gmap Z frame_info) (n : Z) :
  is_Some (frames !! n) → is_Some ((read_meta meta_file frames).1 !! n).
Proof.
  intros Hn. unfold read_meta.
  destruct (parse_meta meta_file) as [[c [[k|] a]]|e]; simpl; [|done..].
  apply lookup_insert_is_Some. destruct (decide (k = n)); auto.
Qed.

Lemma read_all_lookup_is_Some (frame_files : list path) (frames : gmap Z frame_info)
    (n : Z) :
  is_Some (frames !! n) → is_Some ((read_all frame_files frames).1 !! n).
Proof.
  revert frames. induction frame_files as [|f rest IH]; intros frames Hn; [done|].
  rewrite read_all_cons. simpl. by apply IH, read_meta_lookup_is_Some.
Qed.

(** X3.  The registry of a run holds exactly the frame numbers that some
    metadata file parsed to, and the record kept for a frame number is made
    of a file of the run: its text, its flag and its path. *)
Theorem registry_holds_parsed_files (frame_files : list path) :
  let frames := (read_all frame_files ∅).1 in
  (∀ n r, frames !! n = Some r →
     file r ∈ frame_files
     ∧ data (file r) = Readable (meta r)
     ∧ parse_meta (file r) = Ok (meta r, (Some n, displaying_alt r)))
  ∧ (∀ f c n a, f ∈ frame_files → parse_meta f = Ok (c, (Some n, a)) →
       is_Some (frames !! n)).
Proof.
  intros frames. split.
  - intros n r [Hr|[Hin Hparse]]%read_all_lookup_Some; [done|].
    split; [done|]. split; [|done].
    unfold parse_meta, open_read in Hparse.
    destruct (data (file r)) as [c|msg]; [|done]. simpl in Hparse.
    destruct (parse_lines (Py.split c Py.nl) (None, None)); [|done].
    simpl in Hparse. by injection Hparse as ->.
  - intros f c n a Hin Hparse. subst frames.
    apply list_elem_of_split in Hin as (pre & post & ->).
    rewrite read_all_app, read_all_cons. simpl.
    apply read_all_lookup_is_Some.
    unfold read_meta. rewrite Hparse. simpl. rewrite lookup_insert_eq. eauto.
Qed.

Lemma read_meta_size (meta_file : path) (frames : gmap Z frame_info) :
  size (read_meta meta_file frames).1 ≤ S (size frames)
  ∧ length (read_meta meta_file frames).2 ≤ 1.
Proof.
  unfold read_meta.
  destruct (parse_meta meta_file) as [[c [[k|] a]]|e]; simpl; [|lia..].
  split; [|lia]. destruct (frames !! k) as [r|] eqn:Hk.
  - rewrite map_size_insert_Some by eauto. lia.
  - by rewrite map_size_insert_None.
Qed.

(** X4.  The loop only adds and replaces records, at most one per file: a
    frame number once in the registry stays in it, the registry never has
    more records than there are metadata files, and the loop prints at most
    one line per file. *)
Theorem registry_grows_by_at_most_one_per_file
    (frame_files : list path) (frames : gmap Z frame_info) :
  (∀ n, is_Some (frames !! n) → is_Some ((read_all frame_files frames).1 !! n))
  ∧ size (read_all frame_files frames).1 ≤ size frames + length frame_files
  ∧ length (read_all frame_files frames).2 ≤ length frame_files.
Proof.
  split; [intros n; apply read_all_lookup_is_Some|].
  revert frames. induction frame_files as [|f rest IH]; intros frames.
  { simpl. lia. }
  rewrite read_all_cons. simpl. rewrite length_app.
  destruct (IH (read_meta f frames).1) as [IHsize IHlen].
  destruct (read_meta_size f frames) as [Hsize Hlen]. lia.
Qed.

(** ** The order of the files *)

Lemma read_meta_comm (x y : path) (frames : gmap Z frame_info) :
  (∀ n c a c' a', parse_meta x = Ok (c, (Some n, a)) →
                  parse_meta y = Ok (c', (Some n, a')) → x = y) →
  (read_meta y (read_meta x frames).1).1 = (read_meta x (read_meta y frames).1).1.
Proof.
  intros Hdistinct. unfold read_meta.
  destruct (parse_meta x) as [[c [[n|] a]]|e] eqn:Hx; simpl;
    destruct (parse_meta y) as [[c' [[n'|] a']]|e'] eqn:Hy; simpl; try done.
  destruct (decide (n = n')) as [<-|Hne].
  - assert (x = y) as -> by eauto.
    rewrite Hx in Hy. by injection Hy as <- <-.
  - by apply insert_insert_ne.
Qed.

Lemma frame_numbers_distinct_perm (l1 l2 : list path) :
  l1 ≡ₚ l2 → frame_numbers_distinct l1 → frame_numbers_distinct l2.
Proof.
  intros Hperm Hd f g n c a c' a' Hf Hg. apply Hd; by rewrite Hperm.
Qed.

Lemma frame_numbers_distinct_cons (f : path) (l : list path) :
  frame_numbers_distinct (f :: l) → frame_numbers_distinct l.
Proof. intros Hd g h n c a c' a' Hg Hh. apply Hd; by right. Qed.

Lemma read_all_perm (l1 l2 : list path) (frames : gmap Z frame_info) :
  l1 ≡ₚ l2 → frame_numbers_distinct l1 →
  (read_all l1 frames).1 = (read_all l2 frames).1.
Proof.
  intros Hperm. revert frames.
  induction Hperm as [|x l l' Hperm IH|x y l|l l' l'' H1 IH1 H2 IH2];
    intros frames Hd.
  - done.
  - rewrite !read_all_cons. simpl. by eapply IH, frame_numbers_distinct_cons.
  - rewrite !read_all_cons. simpl. rewrite read_meta_comm; [done|].
    intros n c a c' a'. apply Hd; [left|right; left].
  - rewrite IH1 by done. apply IH2. by eapply frame_numbers_distinct_perm.
Qed.

(** X5.  When no two metadata files give the same frame number, the
    registry, and with it everything printed after the loop, does not depend
    on the order in which the files are read. *)
Theorem registry_independent_of_file_order
    (files1 files2 : list path) (frames : gmap Z frame_info) :
  files1 ≡ₚ files2 →
  frame_numbers_distinct files1 →
  (read_all files1 frames).1 = (read_all files2 frames).1
  ∧ sequence_check (read_all files1 frames).1
    = sequence_check (read_all files2 frames).1.
Proof.
  intros Hperm Hd. by rewrite (read_all_perm _ _ frames Hperm Hd).
Qed.

Lemma registry_independent_of_file_order_witness :
  (read_all [file_frame_4; file_frame_3] ∅).1
  = (read_all [file_frame_3; file_frame_4] ∅).1
  ∧ sequence_check (read_all [file_frame_4; file_frame_3] ∅).1
    = sequence_check (read_all [file_frame_3; file_frame_4] ∅).1.
Proof.
  apply registry_independent_of_file_order.
  - apply perm_swap.
  - intros f g n c a c' a' Hf Hg Hpf Hpg.
    apply elem_of_cons in Hf as [->|Hf%list_elem_of_singleton];
      apply elem_of_cons in Hg as [->|Hg%list_elem_of_singleton];
      subst; try reflexivity.
    + vm_compute in Hpf, Hpg. congruence.
    + vm_compute in Hpf, Hpg. congruence.
Defined.

(** ** What a gap means *)

Lemma frame_keys_increasing (frames : gmap Z frame_info) :
  StronglySorted Z.lt (frame_keys frames).
Proof.
  pose proof (frame_keys_sorted frames) as Hsorted.
  pose proof (frame_keys_NoDup frames) as Hnodup.
  induction Hsorted as [|x l Hl IH Hx]; [constructor|].
  apply NoDup_cons in Hnodup as [Hnotin Hnodup].
  constructor; [by apply IH|].
  rewrite Forall_forall in Hx |- *. intros y Hy.
  assert (x ≠ y) by (by intros ->). specialize (Hx y Hy). lia.
Qed.

Lemma length_frame_keys (frames : gmap Z frame_info) :
  length (frame_keys frames) = size frames.
Proof.
  rewrite (Permutation_length (frame_keys_perm frames)).
  by rewrite length_fmap, length_map_to_list.
Qed.

Lemma increasing_neighbours (l : list Z) (i : nat) (a b : Z) :
  StronglySorted Z.lt l → l !! i = Some a → l !! S i = Some b →
  (a < b)%Z ∧ ∀ x, x ∈ l → ¬ (a < x < b)%Z.
Proof.
  intros Hl. revert i. induction Hl as [|c l Hl IH Hc]; intros i Ha Hb; [done|].
  rewrite Forall_forall in Hc. destruct i as [|i]; simpl in *.
  - injection Ha as ->. destruct l as [|b' l]; [done|]. injection Hb as ->.
    split; [apply Hc; left|].
    intros x Hx. apply elem_of_cons in Hx as [->|Hx]; [lia|].
    apply elem_of_cons in Hx as [->|Hx]; [lia|].
    apply StronglySorted_inv in Hl as [_ Hb]. rewrite Forall_forall in Hb.
    specialize (Hb x Hx). lia.
  - destruct (IH i Ha Hb) as [Hab Hbetween]. split; [done|].
    intros x Hx. apply elem_of_cons in Hx as [->|Hx]; [|by apply Hbetween].
    assert (a ∈ l) as Hin by (by eapply list_elem_of_lookup_2).
    specialize (Hc a Hin). lia.
Qed.

(** X6.  Every gap reported lies between two frame numbers of the registry
    that are next to each other in it: both ends are recorded, no frame
    number strictly between them is, and the missing count printed for the
    gap is at least 1. *)
Theorem reported_gap_is_between_recorded_neighbours
    (frames : gmap Z frame_info) (a b : Z) :
  (a, b) ∈ find_gaps (frame_keys frames) →
  is_Some (frames !! a)
  ∧ is_Some (frames !! b)
  ∧ (∀ n, (a < n < b)%Z → frames !! n = None)
  ∧ (1 ≤ b - a - 1)%Z.
Proof.
  rewrite find_gaps_adjacent, elem_of_adjacent_gaps.
  intros (i & Ha & Hb & Hne).
  destruct (increasing_neighbours _ i a b (frame_keys_increasing frames) Ha Hb)
    as [Hab Hbetween].
  split; [apply elem_of_frame_keys; by eapply list_elem_of_lookup_2|].
  split; [apply elem_of_frame_keys; by eapply list_elem_of_lookup_2|].
  split; [|lia].
  intros n Hn. apply eq_None_not_Some. intros Hsome%elem_of_frame_keys.
  by apply (Hbetween n).
Qed.

Lemma reported_gap_witness :
  is_Some (frames_with_gaps !! 2%Z)
  ∧ is_Some (frames_with_gaps !! 5%Z)
  ∧ (∀ n, (2 < n < 5)%Z → frames_with_gaps !! n = None)
  ∧ (1 ≤ 5 - 2 - 1)%Z.
Proof.
  apply reported_gap_is_between_recorded_neighbours.
  apply (bool_decide_unpack _). by vm_compute.
Defined.

(** ** The missing counts add up *)

Lemma missing_total_cons (g : Z * Z) (gaps : list (Z * Z)) :
  missing_total (g :: gaps) = (g.2 - g.1 - 1 + missing_total gaps)%Z.
Proof. reflexivity. Qed.

Lemma missing_total_adjacent (x : Z) (l : list Z) :
  missing_total (adjacent_gaps (x :: l))
  = (default x (last l) - x - Z.of_nat (length l))%Z.
Proof.
  revert x. induction l as [|y l IH]; intros x.
  { simpl. lia. }
  change (adjacent_gaps (x :: y :: l))
    with (if bool_decide (y - x ≠ 1)%Z
          then (x, y) :: adjacent_gaps (y :: l) else adjacent_gaps (y :: l)).
  assert (default x (last (y :: l)) = default y (last l)) as ->.
  { destruct l as [|z l]; [done|]. rewrite last_cons_cons.
    by destruct (last (z :: l)) eqn:Hlast; [|apply last_None in Hlast]. }
  case_bool_decide as Hstep.
  - rewrite missing_total_cons, IH, length_cons, Nat2Z.inj_succ. simpl. lia.
  - rewrite IH, length_cons, Nat2Z.inj_succ. lia.
Qed.

Lemma increasing_head_last (x : Z) (l : list Z) (lo hi : Z) :
  StronglySorted Z.lt (x :: l) →
  lo ∈ x :: l → (∀ n, n ∈ x :: l → (lo ≤ n)%Z) →
  hi ∈ x :: l → (∀ n, n ∈ x :: l → (n ≤ hi)%Z) →
  x = lo ∧ default x (last l) = hi.
Proof.
  intros Hsorted Hlo Hmin Hhi Hmax. split.
  - apply StronglySorted_inv in Hsorted as [_ Hx]. rewrite Forall_forall in Hx.
    apply elem_of_cons in Hlo as [->|Hlo]; [done|].
    specialize (Hx lo Hlo). specialize (Hmin x ltac:(left)). lia.
  - destruct (last l) as [z|] eqn:Hlast; simpl.
    + apply last_Some in Hlast as [l' ->].
      assert (z ∈ x :: l' ++ [z]) as Hz by (right; apply elem_of_app; right; left).
      specialize (Hmax z Hz).
      apply elem_of_cons in Hhi as [->|Hhi].
      * apply StronglySorted_inv in Hsorted as [_ Hx].
        rewrite Forall_forall in Hx.
        assert (z ∈ l' ++ [z]) as Hz' by (apply elem_of_app; right; left).
        specialize (Hx z Hz'). lia.
      * apply elem_of_app in Hhi as [Hhi|Hhi%list_elem_of_singleton]; [|done].
        apply StronglySorted_inv in Hsorted as [Hsorted _].
        pose proof (StronglySorted_app_1_elem_of Z.lt l' [z] hi z Hsorted Hhi
                      ltac:(left)). lia.
    + apply last_None in Hlast as ->.
      by apply list_elem_of_singleton in Hhi.
Qed.

(** X7.  The missing counts of all reported gaps add up to the number of
    frame numbers between the smallest and the largest recorded one that
    are not in the registry. *)
Theorem missing_counts_add_up (frames : gmap Z frame_info) (lo hi : Z) :
  is_Some (frames !! lo) → (∀ n, is_Some (frames !! n) → (lo ≤ n)%Z) →
  is_Some (frames !! hi) → (∀ n, is_Some (frames !! n) → (n ≤ hi)%Z) →
  (missing_total (find_gaps (frame_keys frames)) + Z.of_nat (size frames)
   = hi - lo + 1)%Z.
Proof.
  intros Hlo Hmin Hhi Hmax.
  rewrite find_gaps_adjacent, <-length_frame_keys.
  pose proof (frame_keys_increasing frames) as Hsorted.
  apply elem_of_frame_keys in Hlo, Hhi.
  assert (∀ n, n ∈ frame_keys frames → (lo ≤ n)%Z) as Hmin'
    by (intros n Hn; by apply Hmin, elem_of_frame_keys).
  assert (∀ n, n ∈ frame_keys frames → (n ≤ hi)%Z) as Hmax'
    by (intros n Hn; by apply Hmax, elem_of_frame_keys).
  destruct (frame_keys frames) as [|x l]; [by apply elem_of_nil in Hlo|].
  destruct (increasing_head_last x l lo hi Hsorted Hlo Hmin' Hhi Hmax')
    as [-> <-].
  rewrite missing_total_adjacent, length_cons, Nat2Z.inj_succ. lia.
Qed.

Lemma missing_counts_add_up_witness :
  (missing_total (find_gaps (frame_keys frames_with_gaps))
   + Z.of_nat (size frames_with_gaps) = 9 - 0 + 1)%Z.
Proof.
  apply missing_counts_add_up.
  - apply (bool_decide_unpack _). by vm_compute.
  - intros n Hn%elem_of_frame_keys. vm_compute in Hn.
    repeat (apply elem_of_cons in Hn as [->|Hn]; [lia|]).
    by apply elem_of_nil in Hn.
  - apply (bool_decide_unpack _). by vm_compute.
  - intros n Hn%elem_of_frame_keys. vm_compute in Hn.
    repeat (apply elem_of_cons in Hn as [->|Hn]; [lia|]).
    by apply elem_of_nil in Hn.
Defined.

(** ** The verdict of no gaps *)

Lemma default_last_cons (x y : Z) (l : list Z) :
  default x (last (y :: l)) = default y (last l).
Proof.
  destruct l as [|z l]; [done|]. rewrite last_cons_cons.
  by destruct (last (z :: l)) eqn:Hlast; [|apply last_None in Hlast].
Qed.

Lemma unit_steps_cover (x : Z) (l : list Z) :
  (∀ (i : nat) a b, (x :: l) !! i = Some a → (x :: l) !! S i = Some b →
                    b = (a + 1)%Z) →
  ∀ n, (x ≤ n ≤ default x (last l))%Z → n ∈ x :: l.
Proof.
  revert x. induction l as [|y l IH]; intros x Hstep n Hn.
  { simpl in Hn. assert (n = x) as -> by lia. left. }
  assert (y = (x + 1)%Z) as Hy by (by apply (Hstep 0%nat x y)).
  destruct (decide (n = x)) as [->|Hne]; [left|]. right.
  rewrite default_last_cons in Hn. apply IH; [|lia].
  intros i a b Ha Hb. by apply (Hstep (S i) a b).
Qed.

Lemma gap_report_nil_iff (frame_nums : list Z) (gaps : list (Z * Z)) (hi : Z) :
  py_max frame_nums = hi →
  gap_report frame_nums gaps = ["✓ No gaps in frames 0 to " +:+ Py.str_int hi]
  ↔ gaps = [].
Proof.
  intros <-. split; [|by intros ->].
  destruct gaps as [|g gaps]; [done|].
  intros Heq. apply (f_equal length) in Heq. simpl in Heq. discriminate Heq.
Qed.

(** The verdict line is no other line of the sequence check. *)
Lemma verdict_in_sequence_check (frames : gmap Z frame_info) :
  frames ≠ ∅ →
  ("✓ No gaps in frames 0 to " +:+ Py.str_int (py_max (frame_keys frames)))
    ∈ sequence_check frames
  ↔ find_gaps (frame_keys frames) = [].
Proof.
  intros Hne. unfold sequence_check. rewrite decide_False by done.
  split.
  - intros Hin.
    destruct (find_gaps (frame_keys frames)) as [|g gaps]; [done|]. exfalso.
    apply elem_of_cons in Hin as [Hline|Hin].
    { apply (f_equal (String.substring 0 2)) in Hline.
      vm_compute in Hline. discriminate Hline. }
    apply elem_of_app in Hin as [Hin|Hin].
    { unfold gap_report in Hin. apply elem_of_cons in Hin as [Hline|Hin].
      - apply (f_equal (String.substring 0 2)) in Hline.
        vm_compute in Hline. discriminate Hline.
      - apply (list_elem_of_fmap_1 gap_line) in Hin as ([a b] & Hline & _).
        apply (f_equal (String.substring 0 2)) in Hline.
        vm_compute in Hline. discriminate Hline. }
    apply elem_of_cons in Hin as [Hline|Hin].
    { apply (f_equal (String.substring 0 2)) in Hline.
      vm_compute in Hline. discriminate Hline. }
    apply elem_of_cons in Hin as [Hline|Hin].
    { apply (f_equal (String.substring 0 2)) in Hline.
      vm_compute in Hline. discriminate Hline. }
    apply (list_elem_of_fmap_1 (surface_line frames)) in Hin as (n & Hline & _).
    apply (f_equal (String.substring 0 2)) in Hline.
    unfold surface_line in Hline.
    change (String.substring 0 2 ("Frame " +:+ ?x)) with "Fr" in Hline.
    vm_compute in Hline. discriminate Hline.
  - intros ->. right. left.
Qed.

(** X8.  The gap list is empty, and the verdict of no gaps is printed,
    exactly when every frame number from the smallest to the largest
    recorded one is in the registry; the verdict names the range from 0 to
    the largest, whatever the smallest is. *)
Theorem no_gaps_iff_contiguous (frames : gmap Z frame_info) (lo hi : Z) :
  is_Some (frames !! lo) → (∀ n, is_Some (frames !! n) → (lo ≤ n)%Z) →
  is_Some (frames !! hi) → (∀ n, is_Some (frames !! n) → (n ≤ hi)%Z) →
  let gaps := find_gaps (frame_keys frames) in
  let verdict := "✓ No gaps in frames 0 to " +:+ Py.str_int hi in
  (gaps = [] ↔ ∀ n, (lo ≤ n ≤ hi)%Z → is_Some (frames !! n))
  ∧ (gap_report (frame_keys frames) gaps = [verdict] ↔ gaps = [])
  ∧ (verdict ∈ sequence_check frames
     ↔ ∀ n, (lo ≤ n ≤ hi)%Z → is_Some (frames !! n)).
Proof.
  intros Hlo Hmin Hhi Hmax gaps verdict. subst gaps verdict.
  pose proof (frame_keys_increasing frames) as Hsorted.
  assert (lo ∈ frame_keys frames) as Hlo' by (by apply elem_of_frame_keys).
  assert (hi ∈ frame_keys frames) as Hhi' by (by apply elem_of_frame_keys).
  assert (∀ n, n ∈ frame_keys frames → (lo ≤ n)%Z) as Hmin'
    by (intros n Hn; by apply Hmin, elem_of_frame_keys).
  assert (∀ n, n ∈ frame_keys frames → (n ≤ hi)%Z) as Hmax'
    by (intros n Hn; by apply Hmax, elem_of_frame_keys).
  assert (frames ≠ ∅) as Hne.
  { intros ->. destruct Hlo as [r Hr]. by rewrite lookup_empty in Hr. }
  assert (py_max (frame_keys frames) = hi) as Hpy.
  { assert (frame_keys frames ≠ []) as Hkeys by (by rewrite frame_keys_nil).
    destruct (py_max_spec _ Hkeys) as [Hin Hle].
    specialize (Hmax' _ Hin). specialize (Hle _ Hhi'). lia. }
  assert (find_gaps (frame_keys frames) = []
          ↔ ∀ n, (lo ≤ n ≤ hi)%Z → is_Some (frames !! n)) as Hiff.
  { rewrite find_gaps_adjacent. split.
    - intros Hnone n Hn. apply elem_of_frame_keys.
      destruct (frame_keys frames) as [|x l] eqn:Hkeys;
        [by apply elem_of_nil in Hlo'|].
      destruct (increasing_head_last x l lo hi Hsorted Hlo' Hmin' Hhi' Hmax')
        as [-> <-].
      apply unit_steps_cover; [|done].
      intros i a b Ha Hb. destruct (decide (b - a = 1)%Z) as [|Hstep]; [lia|].
      assert ((a, b) ∈ adjacent_gaps (lo :: l)) as Hin
        by (apply elem_of_adjacent_gaps; eauto).
      rewrite Hnone in Hin. by apply elem_of_nil in Hin.
    - intros Hall.
      destruct (adjacent_gaps (frame_keys frames)) as [|[a b] gs] eqn:Hgaps;
        [done|].
      assert ((a, b) ∈ adjacent_gaps (frame_keys frames)) as Hin
        by (rewrite Hgaps; left).
      apply elem_of_adjacent_gaps in Hin as (i & Ha & Hb & Hstep).
      destruct (increasing_neighbours _ i a b Hsorted Ha Hb) as [Hab Hbetween].
      assert (a ∈ frame_keys frames) as Hain by (by eapply list_elem_of_lookup_2).
      assert (b ∈ frame_keys frames) as Hbin by (by eapply list_elem_of_lookup_2).
      specialize (Hmin' a Hain). specialize (Hmax' b Hbin).
      destruct (Hbetween (a + 1)%Z); [|lia].
      apply elem_of_frame_keys, Hall. lia. }
  split; [exact Hiff|]. split.
  - by apply gap_report_nil_iff.
  - rewrite <-Hiff, <-Hpy. by apply verdict_in_sequence_check.
Qed.

Lemma no_gaps_iff_contiguous_witness :
  "✓ No gaps in frames 0 to 5" ∈ sequence_check frames_3_to_5
  ∧ "✓ No gaps in frames 0 to 9" ∉ sequence_check frames_with_gaps.
Proof.
  split.
  - refine (proj2 (proj2 (proj2 (no_gaps_iff_contiguous frames_3_to_5 3 5 _ _ _ _))) _).
    + apply (bool_decide_unpack _). by vm_compute.
    + intros n Hn%elem_of_frame_keys. vm_compute in Hn.
      repeat (apply elem_of_cons in Hn as [->|Hn]; [lia|]).
      by apply elem_of_nil in Hn.
    + apply (bool_decide_unpack _). by vm_compute.
    + intros n Hn%elem_of_frame_keys. vm_compute in Hn.
      repeat (apply elem_of_cons in Hn as [->|Hn]; [lia|]).
      by apply elem_of_nil in Hn.
    + intros n Hn.
      assert (n = 3 ∨ n = 4 ∨ n = 5)%Z as [->|[->| ->]] by lia;
        apply (bool_decide_unpack _); by vm_compute.
  - intros Hin.
    refine (_ (proj1 (proj2 (proj2 (no_gaps_iff_contiguous frames_with_gaps 0 9 _ _ _ _))) Hin 3%Z _)).
    + intros Hsome. apply (bool_decide_pack _) in Hsome.
      vm_compute in Hsome. exact Hsome.
    + apply (bool_decide_unpack _). by vm_compute.
    + intros n Hn%elem_of_frame_keys. vm_compute in Hn.
      repeat (apply elem_of_cons in Hn as [->|Hn]; [lia|]).
      by apply elem_of_nil in Hn.
    + apply (bool_decide_unpack _). by vm_compute.
    + intros n Hn%elem_of_frame_keys. vm_compute in Hn.
      repeat (apply elem_of_cons in Hn as [->|Hn]; [lia|]).
      by apply elem_of_nil in Hn.
    + lia.
Defined.

(** ** The listing window *)



(** ** Reading back a well-formed dump *)

Lemma string_app_assoc (s t u : string) : (s +:+ t) +:+ u = s +:+ (t +:+ u).
Proof.
  induction s as [|c s IH]; [done|].
  change (String c ((s +:+ t) +:+ u) = String c (s +:+ (t +:+ u))).
  by rewrite IH.
Qed.

Lemma string_app_nil_r (s : string) : s +:+ "" = s.
Proof.
  induction s as [|c s IH]; [done|].
  change (String c (s +:+ "") = String c s). by rewrite IH.
Qed.

Lemma rev_app_rev_app (s cur acc : string) :
  String.rev_app (String.rev_app s cur) acc = String.rev_app cur (s +:+ acc).
Proof.
  revert cur. induction s as [|c s IH]; intros cur; [done|].
  simpl String.rev_app. by rewrite IH.
Qed.

Lemma string_rev_rev_app (s : string) : String.rev (String.rev_app s "") = s.
Proof.
  unfold String.rev. rewrite rev_app_rev_app. simpl. apply string_app_nil_r.
Qed.

Lemma all_chars_app (P : ascii → bool) (s t : string) :
  all_chars P (s +:+ t) = all_chars P s && all_chars P t.
Proof.
  induction s as [|c s IH]; [done|].
  change (P c && all_chars P (s +:+ t) = P c && all_chars P s && all_chars P t).
  by rewrite IH, andb_assoc.
Qed.

Lemma all_chars_rev_app (P : ascii → bool) (s acc : string) :
  all_chars P (String.rev_app s acc) = all_chars P s && all_chars P acc.
Proof.
  revert acc. induction s as [|c s IH]; intros acc; [done|].
  simpl. rewrite IH. simpl. by destruct (P c), (all_chars P s).
Qed.

Lemma all_chars_impl (P Q : ascii → bool) (s : string) :
  (∀ c, P c = true → Q c = true) → all_chars P s = true → all_chars Q s = true.
Proof.
  intros HPQ. induction s as [|c s IH]; [done|]. simpl.
  intros [Hc Hs]%andb_true_iff. by rewrite (HPQ c Hc), IH.
Qed.

(** *** [split] over a piece without the separator's first character *)

Lemma split_go_cons (sep cur s : string) (c : ascii) :
  Py.split_go sep 0 cur (String c s)
  = if String.prefix sep (String c s)
    then String.rev cur :: Py.split_go sep (String.length sep - 1) "" s
    else Py.split_go sep 0 (String c cur) s.
Proof. reflexivity. Qed.

Lemma split_go_piece (c0 : ascii) (sep' s cur t : string) :
  all_chars (λ c, negb (Ascii.eqb c0 c)) s = true →
  Py.split_go (String c0 sep') 0 cur (s +:+ t)
  = Py.split_go (String c0 sep') 0 (String.rev_app s cur) t.
Proof.
  revert cur. induction s as [|c s IH]; intros cur Hs; [done|].
  simpl in Hs. apply andb_true_iff in Hs as [Hc Hs].
  change (String c s +:+ t) with (String c (s +:+ t)).
  rewrite split_go_cons, prefix_cons.
  destruct (ascii_dec c0 c) as [->|_].
  { by rewrite Ascii.eqb_refl in Hc. }
  by rewrite IH.
Qed.

Lemma split_go_skip (sep u cur t : string) :
  Py.split_go sep (String.length u) cur (u +:+ t) = Py.split_go sep 0 cur t.
Proof. induction u as [|c u IH]; [done|]. exact IH. Qed.

Lemma prefix_app (s t : string) : String.prefix s (s +:+ t) = true.
Proof.
  induction s as [|c s IH]; [by destruct t|].
  change (String c s +:+ t) with (String c (s +:+ t)).
  rewrite prefix_cons. by destruct (ascii_dec c c).
Qed.

Lemma split_go_sep (c0 : ascii) (sep' s t : string) :
  all_chars (λ c, negb (Ascii.eqb c0 c)) s = true →
  Py.split_go (String c0 sep') 0 "" (s +:+ String c0 sep' +:+ t)
  = s :: Py.split_go (String c0 sep') 0 "" t.
Proof.
  intros Hs. rewrite split_go_piece by done.
  change (String c0 sep' +:+ t) with (String c0 (sep' +:+ t)).
  rewrite split_go_cons.
  change (String c0 (sep' +:+ t)) with (String c0 sep' +:+ t).
  rewrite prefix_app, string_rev_rev_app.
  change (String.length (String c0 sep') - 1) with (String.length sep' - 0).
  by rewrite Nat.sub_0_r, split_go_skip.
Qed.

Lemma split_go_last (c0 : ascii) (sep' s : string) :
  all_chars (λ c, negb (Ascii.eqb c0 c)) s = true →
  Py.split_go (String c0 sep') 0 "" s = [s].
Proof.
  intros Hs. rewrite <-(string_app_nil_r s) at 1.
  rewrite split_go_piece by done. simpl. by rewrite string_rev_rev_app.
Qed.

Lemma strip_id (s : string) :
  all_chars (λ c, negb (Py.isspace c)) s = true → Py.strip s = s.
Proof.
  intros Hs.
  assert (∀ u, all_chars (λ c, negb (Py.isspace c)) u = true → Py.lstrip u = u)
    as Hl.
  { intros [|c u]; [done|]. simpl. intros [Hc _]%andb_true_iff.
    by destruct (Py.isspace c). }
  unfold Py.strip, Py.rstrip. rewrite (Hl s Hs), Hl.
  - apply string_rev_rev_app.
  - unfold String.rev. by rewrite all_chars_rev_app, Hs.
Qed.

(** *** [int] of a numeral printed by [str] *)

Lemma digit_value_pretty_N_char (d : N) :
  (d < 10)%N →
  Py.digit_value (pretty_N_char d) = Some (Z.of_N d)
  ∧ Ascii.eqb (pretty_N_char d) "_" = false
  ∧ Ascii.eqb (pretty_N_char d) "+" = false
  ∧ Ascii.eqb (pretty_N_char d) "-" = false.
Proof.
  intros Hd.
  assert (d ∈ [0; 1; 2; 3; 4; 5; 6; 7; 8; 9]%N) as Hin.
  { apply (list_elem_of_lookup_2 _ (N.to_nat d)).
    do 10 (destruct d as [|d] using N.peano_ind; [done|]); lia. }
  repeat (apply elem_of_cons in Hin as [->|Hin]; [done|]).
  by apply elem_of_nil in Hin.
Qed.

Lemma pretty_N_go_ind (Q : string → Prop) (x : N) (s : string) :
  (∀ d u, (d < 10)%N → Q u → Q (String (pretty_N_char d) u)) →
  Q s → Q (pretty_N_go x s).
Proof.
  intros Hstep. revert s.
  induction (N.lt_wf_0 x) as [x _ IH]; intros s Hs.
  destruct (decide (x = 0)%N) as [->|Hx]; [by rewrite pretty_N_go_0|].
  rewrite pretty_N_go_step by lia.
  apply IH; [apply N.div_lt; lia|].
  apply Hstep; [apply N.mod_lt; lia|done].
Qed.

Lemma int_digits_pretty_N_go (x : N) (s : string) :
  Py.int_digits false 0 (pretty_N_go x s) = Py.int_digits false (Z.of_N x) s.
Proof.
  revert s. induction (N.lt_wf_0 x) as [x _ IH]; intros s.
  destruct (decide (x = 0)%N) as [->|Hx]; [by rewrite pretty_N_go_0|].
  rewrite pretty_N_go_step by lia.
  rewrite IH by (apply N.div_lt; lia).
  destruct (digit_value_pretty_N_char (x `mod` 10)) as (Hd & Hu & _);
    [apply N.mod_lt; lia|].
  simpl Py.int_digits. rewrite Hu, Hd. f_equal.
  rewrite (N.div_mod x 10) at 3 by lia. lia.
Qed.

Lemma pretty_N_go_numeral (x : N) (s : string) :
  all_chars numeral_char s = true → all_chars numeral_char (pretty_N_go x s) = true.
Proof.
  apply (pretty_N_go_ind (λ u, all_chars numeral_char u = true)).
  intros d u Hd Hu. simpl. rewrite Hu, andb_true_r.
  unfold numeral_char.
  destruct (digit_value_pretty_N_char d Hd) as (Hv & _). rewrite Hv.
  by rewrite orb_true_r.
Qed.

Lemma pretty_N_go_head (x : N) (d : N) (s : string) :
  (d < 10)%N →
  ∃ d' u, (d' < 10)%N ∧ pretty_N_go x (String (pretty_N_char d) s)
                        = String (pretty_N_char d') u.
Proof.
  intros Hd.
  apply (pretty_N_go_ind
           (λ v, ∃ d' u, (d' < 10)%N ∧ v = String (pretty_N_char d') u)).
  - intros d' u Hd' _. by exists d', u.
  - by exists d, s.
Qed.

Lemma pretty_positive_spec (p : positive) :
  ∃ d u, (d < 10)%N
         ∧ pretty (N.pos p) = String (pretty_N_char d) u
         ∧ Py.int_digits false 0 (String (pretty_N_char d) u) = Some (Z.pos p)
         ∧ all_chars numeral_char (String (pretty_N_char d) u) = true.
Proof.
  unfold pretty, pretty_N. rewrite decide_False by done.
  pose proof (int_digits_pretty_N_go (N.pos p) "") as Hint.
  pose proof (pretty_N_go_numeral (N.pos p) "" eq_refl) as Hchars.
  rewrite pretty_N_go_step in Hint, Hchars |- * by lia.
  destruct (pretty_N_go_head (N.pos p `div` 10) (N.pos p `mod` 10) "")
    as (d & u & Hd & Hhead); [apply N.mod_lt; lia|].
  rewrite Hhead in Hint, Hchars |- *. by exists d, u.
Qed.

(** [str(n)] is a well-formed literal of value [n], made of digits and a
    sign only. *)
Lemma int_literal_str_int (n : Z) :
  Py.int_literal (Py.str_int n) = Some n
  ∧ all_chars numeral_char (Py.str_int n) = true.
Proof.
  unfold Py.str_int. destruct n as [|p|p]; [done| |];
    destruct (pretty_positive_spec p) as (d & u & Hd & Hp & Hint & Hchars);
    destruct (digit_value_pretty_N_char d Hd) as (_ & Hu & Hplus & Hminus).
  - change (pretty (Z.pos p)) with (pretty (N.pos p)). rewrite Hp.
    split; [|done].
    unfold Py.int_literal, Py.int_unsigned. by rewrite Hplus, Hminus, Hu, Hint.
  - change (pretty (Z.neg p)) with (String "-" (pretty (N.pos p))). rewrite Hp.
    split; [|simpl in *; by rewrite Hchars].
    unfold Py.int_literal, Py.int_unsigned. simpl Ascii.eqb at 1 2.
    by rewrite Hu, Hint.
Qed.

Lemma count_digits_le_length (s : string) :
  Py.count_digits s ≤ String.length s.
Proof.
  induction s as [|c s IH]; [done|]. simpl.
  destruct (Py.digit_value c); lia.
Qed.

Lemma count_digits_str_int (n : Z) :
  Py.count_digits (Py.str_int n) ≤ String.length (Py.str_int (Z.abs n)).
Proof.
  destruct n as [|p|p]; [done|apply count_digits_le_length|].
  change (Py.str_int (Z.neg p)) with (String "-" (Py.str_int (Z.pos p))).
  change (Z.abs (Z.neg p)) with (Z.pos p).
  change (Py.count_digits (String "-" (Py.str_int (Z.pos p))))
    with (Py.count_digits (Py.str_int (Z.pos p))).
  apply count_digits_le_length.
Qed.

(** [int(str(n))] is [n] when [n] has no more digits than the limit. *)
Lemma int_str_int (n : Z) :
  String.length (Py.str_int (Z.abs n)) ≤ Py.max_str_digits →
  Py.int (Py.str_int n) = Some n.
Proof.
  intros Hlen. unfold Py.int.
  rewrite (proj1 (int_literal_str_int n)).
  pose proof (count_digits_str_int n) as Hcount.
  assert ((Py.count_digits (Py.str_int n) <=? Py.max_str_digits) = true) as ->
    by (apply Nat.leb_le; lia).
  done.
Qed.

Lemma numeral_char_ne (c0 c : ascii) :
  numeral_char c0 = false → numeral_char c = true →
  negb (Ascii.eqb c0 c) = true.
Proof.
  intros H0 Hc. destruct (Ascii.eqb c0 c) eqn:Heq; [|done].
  apply Ascii.eqb_eq in Heq as ->. congruence.
Qed.

Lemma numeral_char_not_space (c : ascii) :
  numeral_char c = true → negb (Py.isspace c) = true.
Proof.
  unfold numeral_char. intros [Hm|Hd]%orb_true_iff.
  - by apply Ascii.eqb_eq in Hm as ->.
  - apply bool_decide_eq_true in Hd as [z Hz].
    unfold Py.digit_value in Hz. unfold Py.isspace.
    destruct (Nat.leb_spec 48 (nat_of_ascii c)); simpl in Hz; [|done].
    destruct (Nat.leb_spec 9 (nat_of_ascii c)),
             (Nat.leb_spec (nat_of_ascii c) 13),
             (Nat.leb_spec 28 (nat_of_ascii c)),
             (Nat.leb_spec (nat_of_ascii c) 32); simpl; try done; lia.
Qed.

Lemma split_dump_text (n : Z) (b : bool) :
  Py.split (dump_text n b) Py.nl
  = [ "Frame: " +:+ Py.str_int n;
      "DisplayingAlt: " +:+ (if b then "true" else "false");
      "" ].
Proof.
  destruct (int_literal_str_int n) as [_ Hchars].
  unfold Py.split, dump_text, Py.nl.
  rewrite <-(string_app_assoc "Frame: " (Py.str_int n)).
  rewrite split_go_sep.
  - f_equal. by destruct b.
  - rewrite all_chars_app. apply andb_true_iff. split; [reflexivity|].
    apply (all_chars_impl numeral_char); [|done].
    intros c. by apply numeral_char_ne.
Qed.

Lemma field_value_frame_line (n : Z) :
  field_value ("Frame: " +:+ Py.str_int n) = Ok (Py.str_int n).
Proof.
  destruct (int_literal_str_int n) as [_ Hchars].
  unfold field_value, Py.split.
  change ("Frame: " +:+ Py.str_int n) with ("Frame" +:+ ": " +:+ Py.str_int n).
  rewrite split_go_sep by done. rewrite split_go_last.
  - simpl. rewrite strip_id; [done|].
    apply (all_chars_impl numeral_char); [|done].
    apply numeral_char_not_space.
  - apply (all_chars_impl numeral_char); [|done].
    intros c. by apply numeral_char_ne.
Qed.

Lemma parse_meta_dump_text (file_name : string) (n : Z) (b : bool) :
  String.length (Py.str_int (Z.abs n)) ≤ Py.max_str_digits →
  parse_meta (text_file file_name (dump_text n b))
  = Ok (dump_text n b, (Some n, Some b)).
Proof.
  intros Hlen. unfold parse_meta, open_read. simpl.
  rewrite split_dump_text. simpl parse_lines.
  assert (parse_line ("Frame: " +:+ Py.str_int n) (None, None)
          = Ok (Some n, None)) as ->.
  { unfold parse_line.
    change (Py.startswith ("Frame: " +:+ Py.str_int n) "Frame:") with true.
    rewrite field_value_frame_line. simpl.
    unfold int_value. by rewrite (int_str_int n Hlen). }
  simpl. by destruct b.
Qed.

(** X10.  A dump written as the line [Frame: <n>] followed by the line
    [DisplayingAlt: true] or [DisplayingAlt: false] is read back as it was
    written, for every integer [n] of at most 4300 digits, negative ones
    included: the record is stored under [n] with that flag, the file's
    text and its path, and the summary line shows the number padded to four
    places and the flag. *)
Theorem well_formed_dump_is_read_back
    (file_name : string) (n : Z) (b : bool) (frames : gmap Z frame_info) :
  String.length (Py.str_int (Z.abs n)) ≤ Py.max_str_digits →
  let meta_file := text_file file_name (dump_text n b) in
  read_meta meta_file frames
  = (<[n := {| meta := dump_text n b;
               displaying_alt := Some b;
               file := meta_file |}]> frames,
     ["Frame " +:+ Py.format_04d n +:+ ": DisplayingAlt="
        +:+ (if b then "True" else "False")]).
Proof.
  intros Hlen meta_file. subst meta_file.
  unfold read_meta. rewrite (parse_meta_dump_text file_name n b Hlen).
  unfold parsed_line. by destruct b.
Qed.

Lemma well_formed_dump_witness :
  read_meta (text_file "gifbolt_frame_0000.txt" (dump_text (-12) true)) ∅
  = ({[ (-12)%Z := {| meta := dump_text (-12) true;
                      displaying_alt := Some true;
                      file := text_file "gifbolt_frame_0000.txt"
                                (dump_text (-12) true) |} ]},
     ["Frame -012: DisplayingAlt=True"]).
Proof.
  refine (well_formed_dump_is_read_back "gifbolt_frame_0000.txt" (-12) true ∅ _).
  apply Nat.leb_le. by vm_compute.
Defined.

(** ** An unreadable file among the others *)



